(** * EVM transaction pipeline of ledger-live-common

    A shallow embedding of [families/evm/transaction.ts] (the raw codec and
    the fee classification) and of [families/evm/prepareTransaction.ts]
    (the preparer), together with models of the two third-party value types
    the code manipulates: bignumber.js decimals and Node buffers. *)

From Stdlib Require Import ZArith NArith Ascii String List Bool Lia.
From Stdlib.Strings Require Byte.
From stdpp Require Import base option list gmap strings.

Local Open Scope string_scope.
Local Open Scope list_scope.

(** ** JavaScript numbers

    [nonce], [chainId] and [type] are JS numbers.  The fields only ever hold
    integers, so a number is an integer or [NaN]; the latter is what
    [Number(undefined)] evaluates to. *)

Inductive jsnumber : Type :=
| JsInt (z : Z)
| JsNaN.

(** [Number(v)] for a value that is a number or [undefined]. *)
Definition Number (v : option jsnumber) : jsnumber :=
  match v with
  | Some n => n
  | None => JsNaN
  end.

(** ** Decimal digits *)

Module Digits.

Definition digit_char (d : N) : ascii := ascii_of_N (48 + d).

Definition digit_of_ascii (c : ascii) : option N :=
  let n := N_of_ascii c in
  if ((48 <=? n) && (n <=? 57))%N then Some (n - 48)%N else None.

(** The [k] least significant decimal digits of [n], most significant
    first. *)
Fixpoint lsd_digits (k : nat) (n : N) : list ascii :=
  match k with
  | O => []
  | S k' => lsd_digits k' (n / 10) ++ [digit_char (n mod 10)]
  end.

(** Drops leading zeros, keeping the last character. *)
Fixpoint strip_zeros (cs : list ascii) : list ascii :=
  match cs with
  | c :: ((_ :: _) as rest) =>
      if Ascii.eqb c "0" then strip_zeros rest else cs
  | _ => cs
  end.

(** The decimal numeral of [n], without leading zeros. *)
Definition int_digits (n : N) : list ascii :=
  strip_zeros (lsd_digits (S (N.to_nat (N.size n))) n).

(** Reads a run of decimal digits, continuing from the value [acc];
    [None] when a character is not a digit. *)
Fixpoint digits_value (acc : N) (cs : list ascii) : option N :=
  match cs with
  | [] => Some acc
  | c :: rest =>
      match digit_of_ascii c with
      | Some d => digits_value (10 * acc + d) rest
      | None => None
      end
  end.

(** Splits at the first decimal point. *)
Fixpoint split_dot (cs : list ascii) : list ascii * option (list ascii) :=
  match cs with
  | [] => ([], None)
  | c :: rest =>
      if Ascii.eqb c "." then ([], Some rest)
      else let '(ip, fp) := split_dot rest in (c :: ip, fp)
  end.

Definition is_digit (c : ascii) : Prop := is_Some (digit_of_ascii c).

End Digits.

(** ** bignumber.js decimals

    A [BigNumber] is [NaN], an infinity, or a finite decimal
    [m * 10^-dp].  As in the library, which keeps a coefficient without
    trailing zeros, a value has one representation: [dp] is the least number
    of decimal places that represents it ([wf]).  The sign of zero is not
    modelled.  The library's configurable limits ([RANGE],
    [DECIMAL_PLACES]) are left at their defaults and play no role in the
    operations below, which are all exact. *)

Module BigNumber.
Import Digits.

Inductive t : Type :=
| NaN
| Infinity (negative : bool)
| Finite (m : Z) (dp : nat).

Definition wf (x : t) : bool :=
  match x with
  | Finite m (S _) => negb (m mod 10 =? 0)%Z
  | _ => true
  end.

Definition isFinite (x : t) : bool :=
  match x with
  | Finite _ _ => true
  | _ => false
  end.

(** Removes trailing zeros from the fractional part. *)
Fixpoint normalize (m : Z) (dp : nat) : Z * nat :=
  match dp with
  | O => (m, O)
  | S k => if (m mod 10 =? 0)%Z then normalize (m / 10) k else (m, dp)
  end.

Definition finite (m : Z) (dp : nat) : t :=
  let '(m', dp') := normalize m dp in Finite m' dp'.

(** [new BigNumber(0)] *)
Definition zero : t := Finite 0 0.

Definition ofZ (z : Z) : t := Finite z 0.

Definition negated (x : t) : t :=
  match x with
  | NaN => NaN
  | Infinity s => Infinity (negb s)
  | Finite m dp => Finite (- m) dp
  end.

(** Coefficient of [m * 10^-dp] at [d >= dp] decimal places. *)
Definition scaled (m : Z) (dp d : nat) : Z := (m * 10 ^ Z.of_nat (d - dp))%Z.

Definition plus (x y : t) : t :=
  match x, y with
  | NaN, _ | _, NaN => NaN
  | Infinity a, Infinity b => if Bool.eqb a b then Infinity a else NaN
  | Infinity a, Finite _ _ => Infinity a
  | Finite _ _, Infinity b => Infinity b
  | Finite a da, Finite b db =>
      let d := Nat.max da db in
      finite (scaled a da d + scaled b db d) d
  end.

Definition minus (x y : t) : t := plus x (negated y).

Definition multipliedBy (x y : t) : t :=
  match x, y with
  | NaN, _ | _, NaN => NaN
  | Finite a da, Finite b db => finite (a * b) (da + db)
  | Infinity s, Finite m _ | Finite m _, Infinity s =>
      if (m =? 0)%Z then NaN else Infinity (xorb s (m <? 0)%Z)
  | Infinity a, Infinity b => Infinity (xorb a b)
  end.

Definition isZero (x : t) : bool :=
  match x with
  | Finite m _ => (m =? 0)%Z
  | _ => false
  end.

Definition isGreaterThan (x y : t) : bool :=
  match x, y with
  | NaN, _ | _, NaN => false
  | Infinity a, Infinity b => negb a && b
  | Infinity a, Finite _ _ => negb a
  | Finite _ _, Infinity b => b
  | Finite a da, Finite b db =>
      let d := Nat.max da db in
      (scaled b db d <? scaled a da d)%Z
  end.

(** Digits of the finite magnitude [n * 10^-dp] in normal notation. *)
Definition finite_digits (n : N) (dp : nat) : list ascii :=
  let p := (10 ^ N.of_nat dp)%N in
  int_digits (n / p) ++
  match dp with
  | O => []
  | S _ => "."%char :: lsd_digits dp (n mod p)
  end.

(** [x.toFixed()]: normal (never exponential) notation, unrounded. *)
Definition toFixed (x : t) : string :=
  match x with
  | NaN => "NaN"
  | Infinity false => "Infinity"
  | Infinity true => "-Infinity"
  | Finite m dp =>
      string_of_list_ascii
        ((if (m <? 0)%Z then ["-"%char] else []) ++
         finite_digits (Z.abs_N m) dp)
  end.

Definition split_sign (cs : list ascii) : bool * list ascii :=
  match cs with
  | c :: rest => if Ascii.eqb c "-" then (true, rest) else (false, cs)
  | [] => (false, [])
  end.

Definition is_nil {A} (l : list A) : bool :=
  match l with
  | [] => true
  | _ => false
  end.

(** An unsigned literal: digits with an optional point and fraction, or a
    point followed by digits.  Returns the digits read as a natural number
    and the number of digits after the point. *)
Definition parse_unsigned (cs : list ascii) : option (N * nat) :=
  let '(ip, fp) := split_dot cs in
  if is_nil ip && is_nil (default [] fp) then None
  else
    match digits_value 0 ip with
    | None => None
    | Some i =>
        match fp with
        | None => Some (i, O)
        | Some f =>
            match digits_value i f with
            | None => None
            | Some v => Some (v, length f)
            end
        end
    end.

(** [new BigNumber(s)] for a string in normal decimal notation, which is what
    [toFixed] writes and the raw form stores.  A string that is not a
    numeral gives [NaN], silently.  The other notations the library reads
    (an exponent part, a radix prefix, surrounding blanks, a leading plus)
    are not modelled. *)
Definition ofString (s : string) : t :=
  let '(neg, body) := split_sign (list_ascii_of_string s) in
  if decide (body = list_ascii_of_string "Infinity") then Infinity neg
  else
    match parse_unsigned body with
    | Some (v, dp) => finite (if neg then - Z.of_N v else Z.of_N v) dp
    | None => NaN
    end.

(** Two representations denote the same decimal when their coefficients
    agree once brought to a common number of places. *)

Definition P10 (d : nat) : Z := (10 ^ Z.of_nat d)%Z.

Definition sameval (m1 : Z) (d1 : nat) (m2 : Z) (d2 : nat) : Prop :=
  (m1 * P10 d2 = m2 * P10 d1)%Z.

End BigNumber.

Abbreviation BigNumber := BigNumber.t.

(** ** Node buffers and their hex encoding *)

Module Buffer.

Definition t : Type := list Byte.byte.

Definition hex_char (d : N) : ascii :=
  if (d <? 10)%N then ascii_of_N (48 + d) else ascii_of_N (87 + d).

Definition hex_value (c : ascii) : option N :=
  let n := N_of_ascii c in
  if ((48 <=? n) && (n <=? 57))%N then Some (n - 48)%N
  else if ((97 <=? n) && (n <=? 102))%N then Some (n - 87)%N
  else if ((65 <=? n) && (n <=? 70))%N then Some (n - 55)%N
  else None.

Fixpoint hex_chars (bs : list Byte.byte) : list ascii :=
  match bs with
  | [] => []
  | b :: rest =>
      let n := Byte.to_N b in
      hex_char (n / 16) :: hex_char (n mod 16) :: hex_chars rest
  end.

(** [buf.toString("hex")]: two lowercase digits per byte. *)
Definition toString_hex (bs : t) : string :=
  string_of_list_ascii (hex_chars bs).

(** Decoding stops at the first pair that is not two hex digits; a trailing
    single character is dropped. *)
Fixpoint decode_hex (cs : list ascii) : list Byte.byte :=
  match cs with
  | c1 :: c2 :: rest =>
      match hex_value c1, hex_value c2 with
      | Some h, Some l =>
          match Byte.of_N (16 * h + l) with
          | Some b => b :: decode_hex rest
          | None => []
          end
      | _, _ => []
      end
  | _ => []
  end.

(** [Buffer.from(s, "hex")] *)
Definition from_hex (s : string) : t := decode_hex (list_ascii_of_string s).

End Buffer.

Abbreviation Buffer := Buffer.t.

(** ** Transactions

    An optional property is an [option]: [None] stands for a property that
    is missing or holds [undefined], which the code under study never tells
    apart. *)

Record Transaction : Type := mkTransaction {
  family : string;
  mode : string;
  amount : BigNumber;
  recipient : string;
  useAllAmount : option bool;
  subAccountId : option string;
  feesStrategy : option string;
  chainId : jsnumber;
  nonce : jsnumber;
  gasLimit : BigNumber;
  data : option Buffer;
  gasPrice : option BigNumber;
  maxFeePerGas : option BigNumber;
  maxPriorityFeePerGas : option BigNumber;
  type : option jsnumber;
}.

(** The raw form: decimals as strings, the payload as a hex string. *)
Module TransactionRaw.

Record t : Type := mk {
  family : string;
  mode : string;
  amount : string;
  recipient : string;
  useAllAmount : option bool;
  subAccountId : option string;
  feesStrategy : option string;
  chainId : jsnumber;
  nonce : jsnumber;
  gasLimit : string;
  data : option string;
  gasPrice : option string;
  maxFeePerGas : option string;
  maxPriorityFeePerGas : option string;
  type : option jsnumber;
}.

End TransactionRaw.

Abbreviation TransactionRaw := TransactionRaw.t.

(** Object spread with one property overridden, [{ ...tx, p: v }], and
    [delete tx.p] (which is [{ ...tx, p: undefined }] read as a value). *)

Definition with_amount (v : BigNumber) (tx : Transaction) : Transaction :=
  mkTransaction (family tx) (mode tx) v (recipient tx) (useAllAmount tx)
    (subAccountId tx) (feesStrategy tx) (chainId tx) (nonce tx) (gasLimit tx)
    (data tx) (gasPrice tx) (maxFeePerGas tx) (maxPriorityFeePerGas tx)
    (type tx).

Definition with_recipient (v : string) (tx : Transaction) : Transaction :=
  mkTransaction (family tx) (mode tx) (amount tx) v (useAllAmount tx)
    (subAccountId tx) (feesStrategy tx) (chainId tx) (nonce tx) (gasLimit tx)
    (data tx) (gasPrice tx) (maxFeePerGas tx) (maxPriorityFeePerGas tx)
    (type tx).

Definition with_gasLimit (v : BigNumber) (tx : Transaction) : Transaction :=
  mkTransaction (family tx) (mode tx) (amount tx) (recipient tx)
    (useAllAmount tx) (subAccountId tx) (feesStrategy tx) (chainId tx)
    (nonce tx) v (data tx) (gasPrice tx) (maxFeePerGas tx)
    (maxPriorityFeePerGas tx) (type tx).

Definition with_data (v : option Buffer) (tx : Transaction) : Transaction :=
  mkTransaction (family tx) (mode tx) (amount tx) (recipient tx)
    (useAllAmount tx) (subAccountId tx) (feesStrategy tx) (chainId tx)
    (nonce tx) (gasLimit tx) v (gasPrice tx) (maxFeePerGas tx)
    (maxPriorityFeePerGas tx) (type tx).

Definition with_gasPrice (v : option BigNumber) (tx : Transaction)
  : Transaction :=
  mkTransaction (family tx) (mode tx) (amount tx) (recipient tx)
    (useAllAmount tx) (subAccountId tx) (feesStrategy tx) (chainId tx)
    (nonce tx) (gasLimit tx) (data tx) v (maxFeePerGas tx)
    (maxPriorityFeePerGas tx) (type tx).

Definition with_maxFeePerGas (v : option BigNumber) (tx : Transaction)
  : Transaction :=
  mkTransaction (family tx) (mode tx) (amount tx) (recipient tx)
    (useAllAmount tx) (subAccountId tx) (feesStrategy tx) (chainId tx)
    (nonce tx) (gasLimit tx) (data tx) (gasPrice tx) v
    (maxPriorityFeePerGas tx) (type tx).

Definition with_maxPriorityFeePerGas (v : option BigNumber) (tx : Transaction)
  : Transaction :=
  mkTransaction (family tx) (mode tx) (amount tx) (recipient tx)
    (useAllAmount tx) (subAccountId tx) (feesStrategy tx) (chainId tx)
    (nonce tx) (gasLimit tx) (data tx) (gasPrice tx) (maxFeePerGas tx) v
    (type tx).

Definition with_type (v : option jsnumber) (tx : Transaction) : Transaction :=
  mkTransaction (family tx) (mode tx) (amount tx) (recipient tx)
    (useAllAmount tx) (subAccountId tx) (feesStrategy tx) (chainId tx)
    (nonce tx) (gasLimit tx) (data tx) (gasPrice tx) (maxFeePerGas tx)
    (maxPriorityFeePerGas tx) v.

(** ** The raw codec ([transaction.ts]) *)

(** Truthiness of an optional string: a missing or empty string is falsy. *)
Definition truthy_string (s : option string) : bool :=
  match s with
  | Some s => negb (String.eqb s "")
  | None => false
  end.

(** Truthiness of an optional object (a [BigNumber], a [Buffer]): every
    object is truthy, whatever it holds. *)
Definition truthy_object {A} (o : option A) : bool :=
  match o with
  | Some _ => true
  | None => false
  end.

(** The properties every family shares. *)
Record TransactionCommon : Type := mkCommon {
  common_amount : BigNumber;
  common_recipient : string;
  common_useAllAmount : option bool;
  common_subAccountId : option string;
}.

Record TransactionCommonRaw : Type := mkCommonRaw {
  commonRaw_amount : string;
  commonRaw_recipient : string;
  commonRaw_useAllAmount : option bool;
  commonRaw_subAccountId : option string;
}.

(** Modelled from the spec: [fromTransactionCommonRaw] of
    [transaction/common] is not among the sources.  The spec's codec
    contract has numeric fields read from decimal strings and the other
    shared fields carried through. *)
Definition fromTransactionCommonRaw (rawTx : TransactionRaw)
  : TransactionCommon :=
  {| common_amount := BigNumber.ofString (TransactionRaw.amount rawTx);
     common_recipient := TransactionRaw.recipient rawTx;
     common_useAllAmount := TransactionRaw.useAllAmount rawTx;
     common_subAccountId := TransactionRaw.subAccountId rawTx |}.

(** Modelled from the spec: [toTransactionCommonRaw] of
    [transaction/common] is not among the sources.  The spec's codec
    contract has numeric fields written as decimal strings and the other
    shared fields carried through. *)
Definition toTransactionCommonRaw (tx : Transaction) : TransactionCommonRaw :=
  {| commonRaw_amount := BigNumber.toFixed (amount tx);
     commonRaw_recipient := recipient tx;
     commonRaw_useAllAmount := useAllAmount tx;
     commonRaw_subAccountId := subAccountId tx |}.

(** Serializer raw to transaction. *)
Definition fromTransactionRaw (rawTx : TransactionRaw) : Transaction :=
  let common := fromTransactionCommonRaw rawTx in
  let tx :=
    {| amount := common_amount common;
       recipient := common_recipient common;
       useAllAmount := common_useAllAmount common;
       subAccountId := common_subAccountId common;
       family := TransactionRaw.family rawTx;
       mode := TransactionRaw.mode rawTx;
       chainId := TransactionRaw.chainId rawTx;
       nonce := TransactionRaw.nonce rawTx;
       gasLimit := BigNumber.ofString (TransactionRaw.gasLimit rawTx);
       feesStrategy := TransactionRaw.feesStrategy rawTx;
       type := Some (Number (TransactionRaw.type rawTx));
       data := None;
       gasPrice := None;
       maxFeePerGas := None;
       maxPriorityFeePerGas := None |} in
  let tx :=
    if truthy_string (TransactionRaw.data rawTx)
    then with_data
           (Some (Buffer.from_hex (default "" (TransactionRaw.data rawTx)))) tx
    else tx in
  let tx :=
    if truthy_string (TransactionRaw.gasPrice rawTx)
    then with_gasPrice
           (Some (BigNumber.ofString
                    (default "" (TransactionRaw.gasPrice rawTx)))) tx
    else tx in
  let tx :=
    if truthy_string (TransactionRaw.maxFeePerGas rawTx)
    then with_maxFeePerGas
           (Some (BigNumber.ofString
                    (default "" (TransactionRaw.maxFeePerGas rawTx)))) tx
    else tx in
  let tx :=
    if truthy_string (TransactionRaw.maxPriorityFeePerGas rawTx)
    then with_maxPriorityFeePerGas
           (Some (BigNumber.ofString
                    (default "" (TransactionRaw.maxPriorityFeePerGas rawTx))))
           tx
    else tx in
  tx.

(** Serializer transaction to raw. *)
Definition toTransactionRaw (tx : Transaction) : TransactionRaw :=
  let common := toTransactionCommonRaw tx in
  {| TransactionRaw.amount := commonRaw_amount common;
     TransactionRaw.recipient := commonRaw_recipient common;
     TransactionRaw.useAllAmount := commonRaw_useAllAmount common;
     TransactionRaw.subAccountId := commonRaw_subAccountId common;
     TransactionRaw.family := family tx;
     TransactionRaw.mode := mode tx;
     TransactionRaw.chainId := chainId tx;
     TransactionRaw.nonce := nonce tx;
     TransactionRaw.gasLimit := BigNumber.toFixed (gasLimit tx);
     TransactionRaw.feesStrategy := feesStrategy tx;
     TransactionRaw.type := type tx;
     TransactionRaw.data :=
       if truthy_object (data tx)
       then Buffer.toString_hex <$> data tx else None;
     TransactionRaw.gasPrice :=
       if truthy_object (gasPrice tx)
       then BigNumber.toFixed <$> gasPrice tx else None;
     TransactionRaw.maxFeePerGas :=
       if truthy_object (maxFeePerGas tx)
       then BigNumber.toFixed <$> maxFeePerGas tx else None;
     TransactionRaw.maxPriorityFeePerGas :=
       if truthy_object (maxPriorityFeePerGas tx)
       then BigNumber.toFixed <$> maxPriorityFeePerGas tx else None |}.

(** ** Accounts, fee data, validation results *)

Record CryptoCurrency : Type := mkCurrency {
  currency_id : string;
}.

Record TokenCurrency : Type := mkToken {
  contractAddress : string;
}.

Module TokenAccount.
Record t : Type := mk {
  id : string;
  balance : BigNumber;
  token : TokenCurrency;
}.
End TokenAccount.

Abbreviation TokenAccount := TokenAccount.t.

Module ChildAccount.
Record t : Type := mk {
  id : string;
  balance : BigNumber;
}.
End ChildAccount.

(** A sub-account is tagged by its [type] property. *)
Inductive SubAccount : Type :=
| SubToken (a : TokenAccount)      (* type === "TokenAccount" *)
| SubChild (a : ChildAccount.t).   (* type === "ChildAccount" *)

Module Account.
Record t : Type := mk {
  freshAddress : string;
  balance : BigNumber;
  currency : CryptoCurrency;
  subAccounts : list SubAccount;
}.
End Account.

Abbreviation Account := Account.t.

(** [Account | TokenAccount], the first argument of [validateAmount]. *)
Inductive AccountLike : Type :=
| OfAccount (a : Account)
| OfTokenAccount (a : TokenAccount).

(** The network's fee snapshot; each property is a [BigNumber] or [null]. *)
Module FeeData.
Record t : Type := mk {
  maxFeePerGas : option BigNumber;
  maxPriorityFeePerGas : option BigNumber;
  gasPrice : option BigNumber;
}.
End FeeData.

Abbreviation FeeData := FeeData.t.

Inductive ValidationError : Type :=
| RecipientRequired
| InvalidAddressFormat
| RecipientIsSenderAddress
| NotEnoughBalance
| AmountRequired
| AddressAdvisory.

(** An object from field name to error; [{}] means valid. *)
Abbreviation ValidationErrors := (gmap string ValidationError).

(** [Object.keys(errors).length] *)
Definition keys_length (errors : ValidationErrors) : nat := size errors.

(** ** Objects, references and awaited calls

    Transactions are objects handled by reference.  A heap holds them;
    [delete] and property writes update the object in place, an object
    literal allocates a fresh one.  An awaited call of the network boundary
    either returns or throws, which rejects the surrounding [async]
    function; what was written to the heap before stays written.
    Looking up a reference that the heap does not hold has no meaning in
    JavaScript; a computation doing so has no result ([None]). *)

Abbreviation loc := nat.
Abbreviation heap := (list Transaction).

Inductive outcome (E A : Type) : Type :=
| Returned (a : A)
| Thrown (e : E).

Arguments Returned {E A} a.
Arguments Thrown {E A} e.

Module Js.
Section WithExn.
Context {E : Type}.

Definition M (A : Type) : Type := heap -> option (heap * outcome E A).

Definition ret {A} (a : A) : M A := fun h => Some (h, Returned a).

Definition bind {A B} (m : M A) (k : A -> M B) : M B :=
  fun h =>
    match m h with
    | Some (h', Returned a) => k a h'
    | Some (h', Thrown e) => Some (h', Thrown e)
    | None => None
    end.

(** [await f(...)] of a call that touches no transaction object. *)
Definition await {A} (o : outcome E A) : M A := fun h => Some (h, o).

Definition read (l : loc) : M Transaction :=
  fun h =>
    match h !! l with
    | Some tx => Some (h, Returned tx)
    | None => None
    end.

(** In-place update of the object at [l]. *)
Definition modify (l : loc) (f : Transaction -> Transaction) : M unit :=
  fun h =>
    match h !! l with
    | Some tx => Some (<[l := f tx]> h, Returned tt)
    | None => None
    end.

(** A new object. *)
Definition alloc (tx : Transaction) : M loc :=
  fun h => Some (h ++ [tx], Returned (length h)).
End WithExn.
End Js.

Notation "'let*' x := m 'in' k" := (Js.bind m (fun x => k))
  (at level 10, x name, m at level 100, k at level 200).

(** ** Fee classification ([transaction.ts]) *)

Definition getTypedTransaction {E} (transaction : loc) (feeData : FeeData)
  : Js.M (E := E) loc :=
  (* If the blockchain is supporting EIP-1559, use maxFeePerGas &
     maxPriorityFeePerGas *)
  if truthy_object (FeeData.maxFeePerGas feeData)
     && truthy_object (FeeData.maxPriorityFeePerGas feeData)
  then
    let* _ := Js.modify transaction (with_gasPrice None) in
    let* tx := Js.read transaction in
    Js.alloc
      (with_type (Some (JsInt 2))
         (with_maxPriorityFeePerGas (FeeData.maxPriorityFeePerGas feeData)
            (with_maxFeePerGas (FeeData.maxFeePerGas feeData) tx)))
  else
    (* Else just use a legacy transaction *)
    let* _ := Js.modify transaction (with_maxFeePerGas None) in
    let* _ := Js.modify transaction (with_maxPriorityFeePerGas None) in
    let* tx := Js.read transaction in
    Js.alloc
      (with_type (Some (JsInt 0))
         (with_gasPrice
            (Some (default BigNumber.zero (FeeData.gasPrice feeData))) tx)).


(** The input object after [getTypedTransaction]: the fee fields of the
    fee model that was not selected have been deleted from it. *)
Definition deletedFeeFields (feeData : FeeData) (tx : Transaction)
  : Transaction :=
  if truthy_object (FeeData.maxFeePerGas feeData)
     && truthy_object (FeeData.maxPriorityFeePerGas feeData)
  then with_gasPrice None tx
  else with_maxPriorityFeePerGas None (with_maxFeePerGas None tx).

(** The object [getTypedTransaction] returns for a transaction holding
    [tx]. *)
Definition typedTransactionOf (feeData : FeeData) (tx : Transaction)
  : Transaction :=
  if truthy_object (FeeData.maxFeePerGas feeData)
     && truthy_object (FeeData.maxPriorityFeePerGas feeData)
  then
    with_type (Some (JsInt 2))
      (with_maxPriorityFeePerGas (FeeData.maxPriorityFeePerGas feeData)
         (with_maxFeePerGas (FeeData.maxFeePerGas feeData)
            (with_gasPrice None tx)))
  else
    with_type (Some (JsInt 0))
      (with_gasPrice
         (Some (default BigNumber.zero (FeeData.gasPrice feeData)))
         (with_maxPriorityFeePerGas None (with_maxFeePerGas None tx))).

(** Every property but the three fee fields and [type]. *)
Definition nonFeeFields (tx : Transaction) :=
  (family tx, mode tx, amount tx, recipient tx, useAllAmount tx,
   subAccountId tx, feesStrategy tx, chainId tx, nonce tx, gasLimit tx,
   data tx).

(** Every property but [recipient]. *)
Definition nonRecipientFields (tx : Transaction) :=
  (family tx, mode tx, amount tx, useAllAmount tx, subAccountId tx,
   feesStrategy tx, chainId tx, nonce tx, gasLimit tx, data tx,
   gasPrice tx, maxFeePerGas tx, maxPriorityFeePerGas tx, type tx).

(** ** The preparer ([prepareTransaction.ts])

    The modules the preparer imports but whose sources are not at hand form
    an interface: the network boundary ([api/rpc]), the validation engine
    ([getTransactionStatus]), the fee formula ([logic]), the sub-account
    lookup ([account]) and the ABI encoder of ethers.  [exn] is what a
    rejected call throws.  Validation, the fee formula and the lookup are
    pure: they return and touch no transaction object.  [console.warn]
    calls are left out. *)

Class Imports (exn : Type) : Type := {
  getFeesEstimation : CryptoCurrency -> outcome exn FeeData;
  getGasEstimation : Account -> Transaction -> outcome exn BigNumber;
  validateRecipient :
    Account -> Transaction -> ValidationErrors * ValidationErrors;
  validateAmount :
    AccountLike -> Transaction -> BigNumber ->
    ValidationErrors * ValidationErrors;
  getEstimatedFees : Transaction -> BigNumber;
  findSubAccountById : Account -> string -> option SubAccount;
  (* new ethers.utils.Interface(ERC20ABI).encodeFunctionData("transfer",
     [recipient, amount]): a hex string with its 0x prefix, or an exception
     for arguments ethers refuses *)
  encodeFunctionData_transfer : string -> string -> outcome exn string;
}.

(** [s.slice(2)] *)
Definition slice2 (s : string) : string :=
  string_of_list_ascii (drop 2 (list_ascii_of_string s)).

(** The [useAllAmount] flag as a condition. *)
Definition truthy_bool (b : option bool) : bool := default false b.

(** [Object.keys(amountErrors).length || Object.keys(recipientErrors).length]
    as a condition. *)
Definition has_errors (amountErrors recipientErrors : ValidationErrors)
  : bool :=
  negb (keys_length amountErrors =? 0)%nat
  || negb (keys_length recipientErrors =? 0)%nat.

(** [subAccount?.type === "TokenAccount"] *)
Definition isTokenAccount (subAccount : option SubAccount) : bool :=
  match subAccount with
  | Some (SubToken _) => true
  | _ => false
  end.

Section Preparer.

Context {exn : Type} {imports : Imports exn}.

Definition getTransactionData (transaction : Transaction)
  : outcome exn (option Buffer) :=
  match encodeFunctionData_transfer (recipient transaction)
          (BigNumber.toFixed (amount transaction)) with
  | Thrown e => Thrown e
  | Returned data =>
      Returned
        (if truthy_string (Some data)
         then Some (Buffer.from_hex (slice2 data))
         else None)
  end.

Definition prepareCoinTransaction (account : Account)
    (typedTransaction : loc) : Js.M (E := exn) loc :=
  let* typed := Js.read typedTransaction in
  let estimatedFees := getEstimatedFees typed in
  let amount :=
    if truthy_bool (useAllAmount typed)
    then BigNumber.minus (Account.balance account) estimatedFees
    else amount typed in
  let totalSpent := BigNumber.plus amount estimatedFees in
  let protoTransaction := with_amount amount typed in
  let recipientErrors := (validateRecipient account typed).1 in
  let amountErrors :=
    (validateAmount (OfAccount account) protoTransaction totalSpent).1 in
  if has_errors amountErrors recipientErrors
  then Js.ret typedTransaction
  else
    let* gasLimit := Js.await (getGasEstimation account protoTransaction) in
    Js.alloc (with_gasLimit gasLimit (with_amount amount protoTransaction)).

Definition prepareTokenTransaction (account : Account)
    (tokenAccount : TokenAccount) (typedTransaction : loc)
  : Js.M (E := exn) loc :=
  let* typed := Js.read typedTransaction in
  let amount :=
    if truthy_bool (useAllAmount typed)
    then TokenAccount.balance tokenAccount
    else amount typed in
  let protoTransaction := with_amount BigNumber.zero typed in
  let recipientErrors := (validateRecipient account protoTransaction).1 in
  let amountErrors :=
    (validateAmount (OfTokenAccount tokenAccount) protoTransaction amount).1 in
  if has_errors amountErrors recipientErrors
  then Js.ret typedTransaction
  else
    let* data := Js.await (getTransactionData (with_amount amount typed)) in
    (* As we're interacting with a smart contract, it's going to be our real
       recipient for the tx *)
    let* gasLimit :=
      Js.await
        (getGasEstimation account
           (with_data data
              (with_recipient
                 (contractAddress (TokenAccount.token tokenAccount))
                 typed))) in
    Js.alloc (with_gasLimit gasLimit (with_data data typed)).

Definition prepareTransaction (account : Account) (transaction : loc)
  : Js.M (E := exn) loc :=
  (* Get the current network status fees *)
  let* feeData := Js.await (getFeesEstimation (Account.currency account)) in
  let* tx := Js.read transaction in
  let subAccount :=
    findSubAccountById account (default "" (subAccountId tx)) in
  let* typedTransaction := getTypedTransaction transaction feeData in
  match subAccount with
  | Some (SubToken tokenAccount) =>
      prepareTokenTransaction account tokenAccount typedTransaction
  | _ => prepareCoinTransaction account typedTransaction
  end.

Definition prepareForSignOperation (account : Account) (transaction : loc)
  : Js.M (E := exn) loc :=
  let* tx := Js.read transaction in
  let subAccount :=
    findSubAccountById account (default "" (subAccountId tx)) in
  match subAccount with
  | Some (SubToken tokenAccount) =>
      Js.alloc
        (with_recipient
           (contractAddress (TokenAccount.token tokenAccount)) tx)
  | _ => Js.ret transaction
  end.

(** *** Names for what the preparer computes on the way *)

(** The sub-account lookup both [prepareTransaction] and
    [prepareForSignOperation] start with. *)
Definition subAccountOf (account : Account) (tx : Transaction)
  : option SubAccount :=
  findSubAccountById account (default "" (subAccountId tx)).

(** The coin path on its own: classify, then [prepareCoinTransaction]. *)
Definition coinPath (account : Account) (transaction : loc)
  : Js.M (E := exn) loc :=
  let* feeData := Js.await (getFeesEstimation (Account.currency account)) in
  let* typedTransaction := getTypedTransaction transaction feeData in
  prepareCoinTransaction account typedTransaction.

(** The local constants [amount] and [totalSpent] of
    [prepareCoinTransaction] and the outcome of its validation. *)
Definition coinAmount (account : Account) (typed : Transaction) : BigNumber :=
  if truthy_bool (useAllAmount typed)
  then BigNumber.minus (Account.balance account) (getEstimatedFees typed)
  else amount typed.

Definition coinTotalSpent (account : Account) (typed : Transaction)
  : BigNumber :=
  BigNumber.plus (coinAmount account typed) (getEstimatedFees typed).

Definition coinValidationFails (account : Account) (typed : Transaction)
  : bool :=
  has_errors
    (validateAmount (OfAccount account)
       (with_amount (coinAmount account typed) typed)
       (coinTotalSpent account typed)).1
    (validateRecipient account typed).1.

(** The local constant [amount] of [prepareTokenTransaction] and the
    outcome of its validation. *)
Definition tokenAmount (tokenAccount : TokenAccount) (typed : Transaction)
  : BigNumber :=
  if truthy_bool (useAllAmount typed)
  then TokenAccount.balance tokenAccount
  else amount typed.

Definition tokenValidationFails (account : Account)
    (tokenAccount : TokenAccount) (typed : Transaction) : bool :=
  has_errors
    (validateAmount (OfTokenAccount tokenAccount)
       (with_amount BigNumber.zero typed)
       (tokenAmount tokenAccount typed)).1
    (validateRecipient account (with_amount BigNumber.zero typed)).1.

(** Validation as the path chosen for [draft] runs it on [typed]. *)
Definition validationFails (account : Account) (draft typed : Transaction)
  : bool :=
  match subAccountOf account draft with
  | Some (SubToken tokenAccount) =>
      tokenValidationFails account tokenAccount typed
  | _ => coinValidationFails account typed
  end.

End Preparer.

(** ** A sample instance of the imports

    Concrete collaborators, used to run the preparer on examples. *)

Module Sample.

Definition is_hex_char (c : ascii) : bool :=
  match Buffer.hex_value c with
  | Some _ => true
  | None => false
  end.

(** The chain's address-format test: [0x] and forty hex digits. *)
Definition isAddress (s : string) : bool :=
  match list_ascii_of_string s with
  | "0"%char :: "x"%char :: rest =>
      (length rest =? 40)%nat && forallb is_hex_char rest
  | _ => false
  end.

(** Modelled from the spec: [validateRecipient] of [getTransactionStatus]
    is not among the sources.  The spec's recipient check fails with
    [RecipientRequired] on an empty recipient, [InvalidAddressFormat] when
    the address-format test fails and [RecipientIsSenderAddress] on the
    account's own receiving address.  The advisory for flagged addresses
    rests on chain data the spec does not give: no warning is produced. *)
Definition validateRecipient (account : Account) (tx : Transaction)
  : ValidationErrors * ValidationErrors :=
  let errors : ValidationErrors :=
    if String.eqb (recipient tx) "" then
      {[ "recipient" := RecipientRequired ]}
    else if negb (isAddress (recipient tx)) then
      {[ "recipient" := InvalidAddressFormat ]}
    else if String.eqb (recipient tx) (Account.freshAddress account) then
      {[ "recipient" := RecipientIsSenderAddress ]}
    else ∅ in
  (errors, ∅).

Definition balanceOf (a : AccountLike) : BigNumber :=
  match a with
  | OfAccount a => Account.balance a
  | OfTokenAccount a => TokenAccount.balance a
  end.

(** Modelled from the spec: [validateAmount] of [getTransactionStatus] is
    not among the sources.  The spec's amount check fails with
    [NotEnoughBalance] when the total spend exceeds the spendable balance
    and with [AmountRequired] when the amount is zero and [useAllAmount] is
    not set. *)
Definition validateAmount (a : AccountLike) (tx : Transaction)
    (totalSpent : BigNumber) : ValidationErrors * ValidationErrors :=
  let errors : ValidationErrors :=
    if BigNumber.isGreaterThan totalSpent (balanceOf a) then
      {[ "amount" := NotEnoughBalance ]}
    else if BigNumber.isZero (amount tx)
            && negb (truthy_bool (useAllAmount tx)) then
      {[ "amount" := AmountRequired ]}
    else ∅ in
  (errors, ∅).

(** Modelled from the spec: [getEstimatedFees] of [logic] is not among the
    sources.  The spec names the fee estimated from the classified
    transaction without a formula; here it is the gas limit times the price
    of the fee model in use. *)
Definition getEstimatedFees (tx : Transaction) : BigNumber :=
  match type tx with
  | Some (JsInt 2) =>
      BigNumber.multipliedBy (gasLimit tx)
        (default BigNumber.zero (maxFeePerGas tx))
  | _ =>
      BigNumber.multipliedBy (gasLimit tx)
        (default BigNumber.zero (gasPrice tx))
  end.

Definition subAccountId_of (a : SubAccount) : string :=
  match a with
  | SubToken a => TokenAccount.id a
  | SubChild a => ChildAccount.id a
  end.

(** Modelled from the spec: [findSubAccountById] of [account] is not among
    the sources.  The spec's account store offers sub-account lookup by id:
    the first sub-account of the account with that id. *)
Definition findSubAccountById (account : Account) (id : string)
  : option SubAccount :=
  List.find (fun a => String.eqb (subAccountId_of a) id)
    (Account.subAccounts account).

(** The [k] least significant hex digits of [n], most significant first. *)
Fixpoint lsd_hex (k : nat) (n : N) : list ascii :=
  match k with
  | O => []
  | S k' => lsd_hex k' (n / 16) ++ [Buffer.hex_char (n mod 16)]
  end.

Definition lower_hex (c : ascii) : ascii :=
  match Buffer.hex_value c with
  | Some d => Buffer.hex_char d
  | None => c
  end.

(** A stand-in for the encoder of ethers: the call data of the ERC-20
    [transfer(address,uint256)], selector [a9059cbb] and two 32-byte words;
    arguments that are not an address and a natural number are refused. *)
Definition encodeFunctionData_transfer (to value : string)
  : outcome string string :=
  match BigNumber.ofString value with
  | BigNumber.Finite m O =>
      if isAddress to && (0 <=? m)%Z then
        Returned
          (string_of_list_ascii
             (list_ascii_of_string "0xa9059cbb"
              ++ repeat "0"%char 24
              ++ map lower_hex (drop 2 (list_ascii_of_string to))
              ++ lsd_hex 64 (Z.to_N m)))
      else Thrown "invalid argument"
  | _ => Thrown "invalid argument"
  end.

End Sample.

(** The imports over a network that answers [fees] and [gas]. *)
Definition sampleImports (fees : outcome string FeeData)
    (gas : outcome string BigNumber) : Imports string :=
  {| getFeesEstimation := fun _ => fees;
     getGasEstimation := fun _ _ => gas;
     validateRecipient := Sample.validateRecipient;
     validateAmount := Sample.validateAmount;
     getEstimatedFees := Sample.getEstimatedFees;
     findSubAccountById := Sample.findSubAccountById;
     encodeFunctionData_transfer := Sample.encodeFunctionData_transfer |}.

(** ** Valid decimals of a transaction *)

Definition wf_option (o : option BigNumber) : bool :=
  match o with
  | Some x => BigNumber.wf x
  | None => true
  end.

(** Every decimal of the transaction is a [BigNumber] value. *)
Definition decimals_wf (tx : Transaction) : bool :=
  BigNumber.wf (amount tx) && BigNumber.wf (gasLimit tx)
  && wf_option (gasPrice tx) && wf_option (maxFeePerGas tx)
  && wf_option (maxPriorityFeePerGas tx).

(** ** Sample data *)

Module Examples.

Definition sender : string := "0x1111111111111111111111111111111111111111".
Definition receiver : string := "0x2222222222222222222222222222222222222222".
Definition contract : string := "0x3333333333333333333333333333333333333333".

Definition ether : CryptoCurrency := {| currency_id := "ethereum" |}.

(** A legacy transfer of 1.5 units with a payload of [bytes]. *)
Definition legacyTx (bytes : option Buffer) : Transaction :=
  {| family := "evm"; mode := "send";
     amount := BigNumber.Finite 15 1; recipient := receiver;
     useAllAmount := Some false; subAccountId := None;
     feesStrategy := Some "medium";
     chainId := JsInt 1; nonce := JsInt 7;
     gasLimit := BigNumber.ofZ 21000;
     data := bytes;
     gasPrice := Some (BigNumber.ofZ 30); maxFeePerGas := None;
     maxPriorityFeePerGas := None;
     type := Some (JsInt 0) |}.

(** A raw transaction that carries no [type]. *)
Definition rawWithoutType : TransactionRaw :=
  {| TransactionRaw.family := "evm"; TransactionRaw.mode := "send";
     TransactionRaw.amount := "1.5"; TransactionRaw.recipient := receiver;
     TransactionRaw.useAllAmount := Some false;
     TransactionRaw.subAccountId := None;
     TransactionRaw.feesStrategy := Some "medium";
     TransactionRaw.chainId := JsInt 1; TransactionRaw.nonce := JsInt 7;
     TransactionRaw.gasLimit := "21000";
     TransactionRaw.data := Some "";
     TransactionRaw.gasPrice := Some "30";
     TransactionRaw.maxFeePerGas := None;
     TransactionRaw.maxPriorityFeePerGas := None;
     TransactionRaw.type := None |}.

(** Networks: one that only quotes a gas price, one with a fee market. *)
Definition legacyFees : FeeData :=
  {| FeeData.maxFeePerGas := None;
     FeeData.maxPriorityFeePerGas := None;
     FeeData.gasPrice := Some (BigNumber.ofZ 1000) |}.

Definition marketFees : FeeData :=
  {| FeeData.maxFeePerGas := Some (BigNumber.ofZ 2000);
     FeeData.maxPriorityFeePerGas := Some (BigNumber.ofZ 100);
     FeeData.gasPrice := Some (BigNumber.ofZ 1000) |}.

Definition onLegacy : Imports string :=
  sampleImports (Returned legacyFees) (Returned (BigNumber.ofZ 21000)).

Definition onMarket : Imports string :=
  sampleImports (Returned marketFees) (Returned (BigNumber.ofZ 21000)).

(** An account holding 1.00000000 of an asset with 8 decimals. *)
Definition coinAccount : Account :=
  {| Account.freshAddress := sender;
     Account.balance := BigNumber.ofZ 100000000;
     Account.currency := ether;
     Account.subAccounts := [] |}.

(** A token sub-account holding 50 of a token with 6 decimals. *)
Definition tokenAccount (id : string) : TokenAccount :=
  {| TokenAccount.id := id;
     TokenAccount.balance := BigNumber.ofZ 50000000;
     TokenAccount.token := {| contractAddress := contract |} |}.

Definition tokenId : string := "js:2:ethereum:0x1111:+usdc".

Definition tokenHolder : Account :=
  {| Account.freshAddress := sender;
     Account.balance := BigNumber.ofZ 100000000;
     Account.currency := ether;
     Account.subAccounts := [SubToken (tokenAccount tokenId)] |}.

(** An account whose token sub-account has the empty string as id. *)
Definition oddAccount : Account :=
  {| Account.freshAddress := sender;
     Account.balance := BigNumber.ofZ 100000000;
     Account.currency := ether;
     Account.subAccounts := [SubToken (tokenAccount "")] |}.

(** A legacy draft with gas limit 10 and gas price 30. *)
Definition draft (to : string) (value : Z) (all : bool)
    (sub : option string) : Transaction :=
  {| family := "evm"; mode := "send";
     amount := BigNumber.ofZ value; recipient := to;
     useAllAmount := Some all; subAccountId := sub;
     feesStrategy := Some "medium";
     chainId := JsInt 1; nonce := JsInt 7;
     gasLimit := BigNumber.ofZ 10;
     data := None;
     gasPrice := Some (BigNumber.ofZ 30); maxFeePerGas := None;
     maxPriorityFeePerGas := None;
     type := Some (JsInt 0) |}.

End Examples.

(** ** The rest of [transaction.ts] *)

Definition with_nonce (v : jsnumber) (tx : Transaction) : Transaction :=
  mkTransaction (family tx) (mode tx) (amount tx) (recipient tx)
    (useAllAmount tx) (subAccountId tx) (feesStrategy tx) (chainId tx) v
    (gasLimit tx) (data tx) (gasPrice tx) (maxFeePerGas tx)
    (maxPriorityFeePerGas tx) (type tx).

(** Exactly one fee model is populated, the one [type] names. *)
Definition hasOneFeeModel (tx : Transaction) : bool :=
  match type tx, gasPrice tx, maxFeePerGas tx, maxPriorityFeePerGas tx with
  | Some (JsInt 0), Some _, None, None => true
  | Some (JsInt 2), None, Some _, Some _ => true
  | _, _, _, _ => false
  end.

Section UnsignedTransaction.

Context {exn : Type}.

(** [getTransactionCount] of [api/rpc], the network's count of the
    transactions sent from an address. *)
Variable getTransactionCount :
  CryptoCurrency -> string -> outcome exn jsnumber.

(** Create an unsigned transaction from a Ledger Live transaction. *)
Definition transactionToUnsignedTransaction (account : Account) (tx : loc)
  : Js.M (E := exn) loc :=
  let currency := Account.currency account in
  let freshAddress := Account.freshAddress account in
  let* nonce := Js.await (getTransactionCount currency freshAddress) in
  let* t := Js.read tx in
  Js.alloc (with_nonce nonce t).

End UnsignedTransaction.

(** [s.toUpperCase()] on the ASCII letters; the modes of a transaction are
    ASCII words.  Other characters are left as they are, which is not what
    JavaScript does for letters outside ASCII. *)
Definition upper_ascii (c : ascii) : ascii :=
  let n := N_of_ascii c in
  if ((97 <=? n) && (n <=? 122))%N then ascii_of_N (n - 32) else c.

Definition toUpperCase (s : string) : string :=
  string_of_list_ascii (map upper_ascii (list_ascii_of_string s)).

(** The line feed of a template literal. *)
Definition lf : string := String (ascii_of_N 10) EmptyString.

Section FormatTransaction.

(** [getAccountUnit] of [account] and [formatCurrencyUnit] of [currencies],
    the latter with its options [showCode] and [disableRounding]. *)
Context {Unit : Type}.
Variable getAccountUnit : Account -> Unit.
Variable formatCurrencyUnit : Unit -> BigNumber -> bool -> bool -> string.

(** Format the transaction for the CLI. *)
Definition formatTransaction (tx : Transaction) (account : Account)
  : string :=
  lf +:+ toUpperCase (mode tx) +:+ " " +:+
  (if truthy_bool (useAllAmount tx) then "MAX"
   else if BigNumber.isZero (amount tx) then ""
   else " " +:+
        formatCurrencyUnit (getAccountUnit account) (amount tx) true true)
  +:+
  (if truthy_string (Some (recipient tx))
   then lf +:+ "TO " +:+ recipient tx
   else "").

End FormatTransaction.

(** Every decimal of the fee data is a [BigNumber] value. *)
Definition feeData_wf (feeData : FeeData) : bool :=
  wf_option (FeeData.maxFeePerGas feeData)
  && wf_option (FeeData.maxPriorityFeePerGas feeData)
  && wf_option (FeeData.gasPrice feeData).

(** The heap a run ends with. *)
Definition heap_after {E A : Type} (run : option (heap * outcome E A))
  : heap :=
  match run with
  | Some (h, _) => h
  | None => []
  end.

(** What a run hands back to its caller: the transaction behind the
    reference returned, or what was thrown. *)
Definition returned_value {E : Type} (run : option (heap * outcome E loc))
  : option (outcome E (option Transaction)) :=
  match run with
  | Some (h, Returned l) => Some (Returned (h !! l))
  | Some (_, Thrown e) => Some (Thrown e)
  | None => None
  end.

(** ** The devices reducer ([renderer/reducers/devices.js])

    A device is known by its [deviceId], a string, as in the device objects
    this file builds itself. *)

Module Devices.

Record Device : Type := mkDevice {
  deviceId : string;
  wired : bool;
  modelId : string;
}.

Record DevicesState : Type := mkState {
  currentDevice : option Device;
  devices : list Device;
}.

Definition initialState : DevicesState :=
  {| currentDevice := None; devices := [] |}.

Definition setCurrentDevice (state : DevicesState) : DevicesState :=
  let currentDevice :=
    if negb (length (devices state) =? 0)%nat
    then devices state !! (length (devices state) - 1)%nat
    else None in
  {| currentDevice := currentDevice; devices := devices state |}.

(** [s?.id] for a string [s]: a string has no property [id], the access
    gives [undefined]. *)
Definition id_of_string (s : string) : option string := None.

Inductive Action : Type :=
| RESET_DEVICES
| ADD_DEVICE (device : Device)
| REMOVE_DEVICE (device : Device)
| SET_CURRENT_DEVICE (currentDevice : Device)
| OTHER (type : string).

Definition addDevice (state : DevicesState) (device : Device)
  : DevicesState :=
  let duplicate :=
    existsb
      (fun d =>
         String.eqb (deviceId d) (deviceId device)
         || bool_decide (id_of_string (deviceId d) =
                         id_of_string (deviceId device)))
      (devices state) in
  if duplicate && truthy_object (currentDevice state) then state
  else
    setCurrentDevice
      {| currentDevice := currentDevice state;
         devices :=
           if duplicate then devices state
           else devices state ++ [device] |}.

Definition removeDevice (state : DevicesState) (device : Device)
  : DevicesState :=
  {| currentDevice :=
       match currentDevice state with
       | Some current =>
           if String.eqb (deviceId current) (deviceId device) then None
           else Some current
       | None => None
       end;
     devices :=
       List.filter
         (fun d => negb (String.eqb (deviceId d) (deviceId device)))
         (devices state) |}.

(** [handleActions(handlers, initialState)]: an action without a handler
    leaves the state as it is. *)
Definition reducer (state : DevicesState) (action : Action) : DevicesState :=
  match action with
  | RESET_DEVICES => initialState
  | ADD_DEVICE device => addDevice state device
  | REMOVE_DEVICE device => removeDevice state device
  | SET_CURRENT_DEVICE currentDevice =>
      {| currentDevice := Some currentDevice; devices := devices state |}
  | OTHER _ => state
  end.

(** The state after a run of actions from the initial state. *)
Definition run (actions : list Action) : DevicesState :=
  fold_left reducer actions initialState.

Definition isSetCurrent (action : Action) : bool :=
  match action with
  | SET_CURRENT_DEVICE _ => true
  | _ => false
  end.

(** [DeviceModelId.nanoS] *)
Definition nanoS : string := "nanoS".

Definition proxyDevice : Device :=
  {| deviceId := ""; wired := true; modelId := nanoS |}.

Section Selectors.

(** [getEnv] of [live-common/env]; the two settings read here are strings,
    empty when unset. *)
Variable getEnv : string -> string.

Definition getCurrentDevice (state : DevicesState) : option Device :=
  if truthy_string (Some (getEnv "DEVICE_PROXY_URL"))
     || truthy_string (Some (getEnv "MOCK"))
  then
    (* bypass the listen devices *)
    Some proxyDevice
  else currentDevice state.

Definition getDevices (state : DevicesState) : list Device :=
  if truthy_string (Some (getEnv "DEVICE_PROXY_URL"))
  then
    (* bypass the listen devices *)
    [proxyDevice]
  else devices state.

End Selectors.

End Devices.

(** ** The gate check run of the CI bot ([orchestrator/tools.ts]) *)

Module Gate.

Definition getStatusEmoji (status : string) : string :=
  if String.eqb status "success" then "✅"
  else if String.eqb status "failure" then "❌"
  else if String.eqb status "neutral" then "🤷"
  else if String.eqb status "cancelled" then "⏹"
  else if String.eqb status "timed_out" then "⏱"
  else if String.eqb status "action_required" then "🚨"
  else if String.eqb status "stale" then "🧟"
  else if String.eqb status "skipped" then "⏭"
  else "⏳".

Record Output : Type := mkOutput {
  title : string;
  summary : string;
}.

(** [summary || fallback] *)
Definition or_else (s : option string) (fallback : string) : string :=
  if truthy_string s then default "" s else fallback.

Definition getGenericOutput (conclusion : string) (summary : option string)
  : Output :=
  if String.eqb conclusion "success" then
    {| title := getStatusEmoji conclusion;
       summary := or_else summary "Completed successfully 🎉" |}
  else if String.eqb conclusion "failure" then
    {| title := getStatusEmoji conclusion;
       summary := or_else summary "Completed with errors" |}
  else if String.eqb conclusion "neutral" then
    {| title := getStatusEmoji conclusion;
       summary := or_else summary "Completed with neutral result" |}
  else if String.eqb conclusion "cancelled" then
    {| title := getStatusEmoji conclusion;
       summary := or_else summary "Cancelled" |}
  else if String.eqb conclusion "timed_out" then
    {| title := getStatusEmoji conclusion;
       summary := or_else summary "Timed out" |}
  else if String.eqb conclusion "action_required" then
    {| title := getStatusEmoji conclusion;
       summary := or_else summary "Action required" |}
  else if String.eqb conclusion "stale" then
    {| title := getStatusEmoji conclusion;
       summary := or_else summary "Stale" |}
  else if String.eqb conclusion "skipped" then
    {| title := getStatusEmoji conclusion;
       summary := or_else summary "Skipped" |}
  else
    {| title := "❓"; summary := or_else summary "Unknown" |}.

(** [s.split("@")[0]]: what stands before the first [@]. *)
Fixpoint before_at (cs : list ascii) : list ascii :=
  match cs with
  | [] => []
  | c :: rest => if Ascii.eqb c "@" then [] else c :: before_at rest
  end.

(** [Some rest] when [s] is [p] followed by [rest]. *)
Fixpoint strip_prefix (p s : list ascii) : option (list ascii) :=
  match p, s with
  | [], _ => Some s
  | a :: p', b :: s' => if Ascii.eqb a b then strip_prefix p' s' else None
  | _ :: _, [] => None
  end.

(** [s.replace(p, "")] for a string pattern: the first occurrence of [p]
    is removed. *)
Fixpoint remove_first (p s : list ascii) : list ascii :=
  match strip_prefix p s with
  | Some rest => rest
  | None =>
      match s with
      | [] => []
      | c :: s' => c :: remove_first p s'
      end
  end.

(** The workflow file of a [workflow_run] payload, from
    [payload.workflow.path]. *)
Definition extractWorkflowFile (path : string) : string :=
  string_of_list_ascii
    (remove_first (list_ascii_of_string ".github/workflows/")
       (before_at (list_ascii_of_string path))).

Record CheckRun : Type := mkCheckRun {
  name : string;
  id : Z;
  html_url : option string;
  status : string;
  conclusion : option string;
}.

Record Workflow : Type := mkWorkflow {
  checkRunName : string;
}.

Record CheckSuite : Type := mkCheckSuite {
  suite_id : Z;
  app_id : option Z;
}.

Definition conclusions : list string :=
  ["success"; "pending"; "waiting"; "neutral"; "stale"; "skipped";
   "timed_out"; "action_required"; "cancelled"; "startup_failure";
   "failure"].

Fixpoint indexOf_from (i : Z) (x : string) (l : list string) : Z :=
  match l with
  | [] => -1
  | y :: rest => if String.eqb y x then i else indexOf_from (i + 1) x rest
  end.

(** [l.indexOf(x)] *)
Definition indexOf (x : string) (l : list string) : Z := indexOf_from 0 x l.

(** What the reduction of the check runs keeps: the pair it returns, and
    the two variables of the enclosing function it assigns. *)
Record Aggregate : Type := mkAggregate {
  aggregatedConclusion : string;
  aggregatedStatus : string;
  gateId : option Z;
  watching : string;
}.

(** What is sent to [octokit.checks.update]; the time stamp
    [completed_at] is left out. *)
Inductive GateUpdate : Type :=
| UpdateCompleted (check_run_id : Z) (conclusion : string)
    (output : Output)
| UpdateRunning (check_run_id : Z) (status : string) (output : Output).

(** [s[0].toLocaleUpperCase() + s.slice(1)] for an ASCII word. *)
Definition capitalize (s : string) : string :=
  match s with
  | String c rest => String (upper_ascii c) rest
  | EmptyString => EmptyString
  end.

(** [`${v}`] for a string or [null]. *)
Definition interpolate (v : option string) : string := default "null" v.

Section UpdateGate.

Context {exn : Type}.

(** The constants of [./const]. *)
Variable BOT_APP_ID : Z.
Variable GATE_CHECK_RUN_NAME : string.
(** [Object.values(WORKFLOWS)] *)
Variable WORKFLOWS : list Workflow.

Definition initialAggregate : Aggregate :=
  {| aggregatedConclusion := "success";
     aggregatedStatus := "completed";
     gateId := None;
     watching :=
       "#### This is the gate check run. It aggregates the status of all the other checks in the check suite."
       +:+ lf +:+ lf +:+ "### 👁 Watching" |}.

(** A check run none of the workflows names. *)
Definition unwatched (check_run : CheckRun) : bool :=
  forallb
    (fun w => negb (String.eqb (checkRunName w) (name check_run)))
    WORKFLOWS.

(** One step of the reduction over the check runs. *)
Definition step (acc : Aggregate) (check_run : CheckRun) : Aggregate :=
  if String.eqb (name check_run) GATE_CHECK_RUN_NAME then
    {| aggregatedConclusion := aggregatedConclusion acc;
       aggregatedStatus := aggregatedStatus acc;
       gateId := Some (id check_run);
       watching := watching acc |}
  else if unwatched check_run then acc
  else
    let shown := or_else (conclusion check_run) (status check_run) in
    let summary :=
      watching acc +:+ lf +:+ "- **[" +:+ name check_run +:+ "](" +:+
      interpolate (html_url check_run) +:+ ")**: " +:+ shown +:+ " " +:+
      getStatusEmoji shown in
    let priority :=
      indexOf (or_else (conclusion check_run) "neutral") conclusions in
    let accumulatorPriority :=
      indexOf (aggregatedConclusion acc) conclusions in
    let newPriority :=
      if (priority >? accumulatorPriority)%Z
      then or_else (conclusion check_run) "neutral"
      else aggregatedConclusion acc in
    let newStatus :=
      if String.eqb (status check_run) "completed"
         && String.eqb (aggregatedStatus acc) "completed"
      then "completed"
      else "in_progress" in
    {| aggregatedConclusion := newPriority;
       aggregatedStatus := newStatus;
       gateId := gateId acc;
       watching := summary |}.

Definition aggregate (check_runs : list CheckRun) : Aggregate :=
  fold_left step check_runs initialAggregate.

(** The update of the gate check run for the check runs of the suite, if
    any: none without a gate check run (or with the id 0, which is
    falsy). *)
Definition gateUpdate (check_runs : list CheckRun) : option GateUpdate :=
  let acc := aggregate check_runs in
  match gateId acc with
  | None => None
  | Some gate =>
      if (gate =? 0)%Z then None
      else if String.eqb (aggregatedStatus acc) "completed" then
        Some (UpdateCompleted gate (aggregatedConclusion acc)
                {| title :=
                     getStatusEmoji (aggregatedConclusion acc) +:+ " " +:+
                     capitalize (aggregatedConclusion acc);
                   summary := watching acc |})
      else
        Some (UpdateRunning gate (aggregatedStatus acc)
                {| title := "⚙️ Running"; summary := watching acc |})
  end.

(** [updateGateCheckRun] over the answers of the two listing requests: the
    check suites of the ref, and the check runs of a suite. *)
Definition updateGateCheckRun
    (listSuitesForRef : outcome exn (list CheckSuite))
    (listForSuite : Z -> outcome exn (list CheckRun))
  : outcome exn (option GateUpdate) :=
  match listSuitesForRef with
  | Thrown e => Thrown e
  | Returned check_suites =>
      match List.find
              (fun suite => bool_decide (app_id suite = Some BOT_APP_ID))
              check_suites with
      | None => Returned None
      | Some checkSuite =>
          match listForSuite (suite_id checkSuite) with
          | Thrown e => Thrown e
          | Returned check_runs => Returned (gateUpdate check_runs)
          end
      end
  end.

(** A check run that takes part in the aggregate. *)
Definition watched (check_run : CheckRun) : bool :=
  negb (String.eqb (name check_run) GATE_CHECK_RUN_NAME)
  && negb (unwatched check_run).

(** The rank of a check run's conclusion, [null] counting as neutral. *)
Definition rank (check_run : CheckRun) : Z :=
  indexOf (or_else (conclusion check_run) "neutral") conclusions.

End UpdateGate.

End Gate.

(** ** More sample data *)

Module MoreExamples.
Import Examples.

(** A network that cannot be reached. *)
Definition offline : Imports string :=
  sampleImports (Thrown "offline") (Returned (BigNumber.ofZ 21000)).

(** A node that quotes fees and refuses to estimate gas. *)
Definition noEstimate : Imports string :=
  sampleImports (Returned legacyFees) (Thrown "no estimate").

Definition sendAll : Transaction := draft receiver 0 true None.
Definition sendFive : Transaction := draft receiver 5 false None.
Definition tokenSendAll : Transaction :=
  draft receiver 0 true (Some tokenId).

(** The payload the sample encoder gives for [tokenSendAll] with the token
    balance as amount. *)
Definition tokenPayload : option Buffer :=
  match getTransactionData (imports := onLegacy)
          (with_amount (BigNumber.ofZ 50000000) tokenSendAll) with
  | Returned d => d
  | Thrown _ => None
  end.

Definition transferBytes : Buffer :=
  match Sample.encodeFunctionData_transfer receiver "5" with
  | Returned s => Buffer.from_hex (slice2 s)
  | Thrown _ => []
  end.

Definition countEight (c : CryptoCurrency) (address : string)
  : outcome string jsnumber :=
  Returned (JsInt 8).

Definition noUnit (a : Account) : unit := tt.
Definition plainFormat (u : unit) (v : BigNumber) (showCode rounding : bool)
  : string :=
  BigNumber.toFixed v.
Definition otherFormat (u : unit) (v : BigNumber) (showCode rounding : bool)
  : string :=
  "?".

Definition nanoX : Devices.Device :=
  {| Devices.deviceId := "usb-1"; Devices.wired := true;
     Devices.modelId := "nanoX" |}.
Definition stax : Devices.Device :=
  {| Devices.deviceId := "usb-2"; Devices.wired := true;
     Devices.modelId := "stax" |}.

Definition gateName : string := "Gate".
Definition workflows : list Gate.Workflow :=
  [{| Gate.checkRunName := "build" |}; {| Gate.checkRunName := "test" |}].

Definition checkRun (name : string) (id : Z) (status : string)
    (conclusion : option string) : Gate.CheckRun :=
  {| Gate.name := name; Gate.id := id;
     Gate.html_url := Some "https://example.org/run";
     Gate.status := status; Gate.conclusion := conclusion |}.

Definition greenRuns : list Gate.CheckRun :=
  [checkRun "Gate" 7 "in_progress" None;
   checkRun "build" 8 "completed" (Some "success");
   checkRun "lint" 9 "completed" (Some "failure");
   checkRun "test" 10 "completed" (Some "success")].

Definition redRuns : list Gate.CheckRun :=
  [checkRun "build" 8 "completed" (Some "cancelled");
   checkRun "test" 10 "completed" (Some "failure");
   checkRun "Gate" 7 "in_progress" None].

End MoreExamples.
(** * Facts about the value models *)

Module DigitsFacts.
Import Digits.

Lemma digit_of_char d : (d < 10)%N -> digit_of_ascii (digit_char d) = Some d.
Proof.
  intros Hd. unfold digit_of_ascii, digit_char.
  rewrite N_ascii_embedding by lia.
  replace ((48 <=? 48 + d) && (48 + d <=? 57))%N with true.
  - f_equal. lia.
  - symmetry. apply andb_true_iff. split; apply N.leb_le; lia.
Qed.

Lemma digit_char_is_digit d : (d < 10)%N -> is_digit (digit_char d).
Proof. intros Hd. unfold is_digit. rewrite digit_of_char by done. eauto. Qed.

Lemma is_digit_not_dot c : is_digit c -> Ascii.eqb c "." = false.
Proof.
  intros [d Hd]. apply Ascii.eqb_neq. intros ->. discriminate Hd.
Qed.

Lemma is_digit_not_minus c : is_digit c -> c <> "-"%char.
Proof. intros [d Hd] ->. discriminate Hd. Qed.

Lemma lsd_digits_length k n : length (lsd_digits k n) = k.
Proof.
  revert n. induction k as [|k IH]; intros n; simpl; [done|].
  rewrite length_app, IH. simpl. lia.
Qed.

Lemma lsd_digits_all_digits k n : Forall is_digit (lsd_digits k n).
Proof.
  revert n. induction k as [|k IH]; intros n; simpl; [constructor|].
  apply Forall_app. split; [apply IH|].
  repeat constructor. apply digit_char_is_digit.
  apply N.mod_lt. lia.
Qed.

Lemma digits_value_app acc cs ds :
  digits_value acc (cs ++ ds) =
  match digits_value acc cs with
  | Some v => digits_value v ds
  | None => None
  end.
Proof.
  revert acc. induction cs as [|c cs IH]; intros acc; simpl; [done|].
  destruct (digit_of_ascii c); [apply IH | done].
Qed.

(** Reading back [k] digits of [n] appends them to the accumulator. *)
Lemma digits_value_lsd k n acc :
  digits_value acc (lsd_digits k n) =
  Some (acc * 10 ^ N.of_nat k + n mod 10 ^ N.of_nat k)%N.
Proof.
  revert n acc. induction k as [|k IH]; intros n acc.
  - simpl. rewrite N.mod_1_r. f_equal. lia.
  - cbn [lsd_digits]. rewrite digits_value_app, IH. cbn [digits_value].
    rewrite digit_of_char by (apply N.mod_lt; lia).
    f_equal. rewrite Nat2N.inj_succ, N.pow_succ_r'.
    set (p := (10 ^ N.of_nat k)%N).
    assert (Hp : (0 < p)%N) by (apply N.neq_0_lt_0, N.pow_nonzero; lia).
    rewrite N.Div0.mod_mul_r. lia.
Qed.

Lemma strip_zeros_cons c c' cs :
  strip_zeros (c :: c' :: cs) =
  if Ascii.eqb c "0" then strip_zeros (c' :: cs) else c :: c' :: cs.
Proof. reflexivity. Qed.

Lemma strip_zeros_value cs :
  digits_value 0 (strip_zeros cs) = digits_value 0 cs.
Proof.
  induction cs as [|c cs IH]; [done|].
  destruct cs as [|c' cs]; [done|].
  rewrite strip_zeros_cons. destruct (Ascii.eqb_spec c "0") as [->|]; [|done].
  rewrite IH. reflexivity.
Qed.

Lemma strip_zeros_all_digits cs : Forall is_digit cs -> Forall is_digit (strip_zeros cs).
Proof.
  induction cs as [|c cs IH]; intros H; [done|].
  destruct cs as [|c' cs]; [done|].
  rewrite strip_zeros_cons. destruct (Ascii.eqb c "0"); [|done].
  apply IH. by inversion H.
Qed.

Lemma strip_zeros_nonempty cs : cs <> [] -> strip_zeros cs <> [].
Proof.
  induction cs as [|c cs IH]; intros H; [done|].
  destruct cs as [|c' cs]; [done|].
  rewrite strip_zeros_cons. destruct (Ascii.eqb c "0"); [|done].
  by apply IH.
Qed.

Lemma size_bound n : (n < 10 ^ N.of_nat (N.to_nat (N.size n)))%N.
Proof.
  rewrite N2Nat.id.
  apply N.lt_le_trans with (2 ^ N.size n)%N; [apply N.size_gt|].
  apply N.pow_le_mono_l. lia.
Qed.

Lemma int_digits_value n : digits_value 0 (int_digits n) = Some n.
Proof.
  unfold int_digits. rewrite strip_zeros_value, digits_value_lsd.
  f_equal. rewrite N.mod_small; [lia|].
  pose proof (size_bound n) as Hb.
  rewrite Nat2N.inj_succ, N.pow_succ_r'. lia.
Qed.

Lemma int_digits_all_digits n : Forall is_digit (int_digits n).
Proof. apply strip_zeros_all_digits, lsd_digits_all_digits. Qed.

Lemma int_digits_nonempty n : int_digits n <> [].
Proof.
  apply strip_zeros_nonempty. intros H.
  apply (f_equal (@length ascii)) in H. rewrite lsd_digits_length in H.
  discriminate H.
Qed.

Lemma split_dot_digits cs :
  Forall is_digit cs -> split_dot cs = (cs, None).
Proof.
  induction 1 as [|c cs Hc _ IH]; [done|].
  simpl. rewrite (is_digit_not_dot c Hc), IH. reflexivity.
Qed.

Lemma split_dot_digits_dot cs ds :
  Forall is_digit cs -> split_dot (cs ++ "."%char :: ds) = (cs, Some ds).
Proof.
  induction 1 as [|c cs Hc _ IH]; [done|].
  simpl. rewrite (is_digit_not_dot c Hc), IH. reflexivity.
Qed.

End DigitsFacts.

Module BigNumberFacts.
Import Digits DigitsFacts BigNumber.

Lemma normalize_wf m dp : wf (Finite m dp) = true -> normalize m dp = (m, dp).
Proof.
  destruct dp as [|k]; [done|]. simpl.
  destruct (m mod 10 =? 0)%Z; [discriminate|done].
Qed.

Lemma finite_wf m dp : wf (Finite m dp) = true -> finite m dp = Finite m dp.
Proof. intros H. unfold finite. by rewrite normalize_wf. Qed.

Lemma wf_normalize m dp :
  wf (Finite (normalize m dp).1 (normalize m dp).2) = true.
Proof.
  revert m. induction dp as [|k IH]; intros m; [done|].
  cbn [normalize]. destruct (m mod 10 =? 0)%Z eqn:E; [apply IH|].
  simpl. by rewrite E.
Qed.

Lemma wf_finite m dp : wf (finite m dp) = true.
Proof.
  unfold finite. pose proof (wf_normalize m dp) as H.
  by destruct (normalize m dp).
Qed.

Lemma finite_digits_head n dp :
  exists c rest, finite_digits n dp = c :: rest /\ is_digit c.
Proof.
  unfold finite_digits.
  pose proof (int_digits_nonempty (n / 10 ^ N.of_nat dp)) as Hne.
  pose proof (int_digits_all_digits (n / 10 ^ N.of_nat dp)) as Hd.
  destruct (int_digits (n / 10 ^ N.of_nat dp)) as [|c cs]; [done|].
  exists c. eexists. split; [reflexivity|]. by inversion Hd.
Qed.

Lemma parse_finite_digits n dp :
  parse_unsigned (finite_digits n dp) = Some (n, dp).
Proof.
  unfold parse_unsigned, finite_digits.
  set (p := (10 ^ N.of_nat dp)%N).
  assert (Hp : p <> 0%N) by (apply N.pow_nonzero; lia).
  pose proof (int_digits_nonempty (n / p)) as Hne.
  pose proof (int_digits_all_digits (n / p)) as Hd.
  pose proof (int_digits_value (n / p)) as Hv.
  destruct dp as [|k].
  - rewrite app_nil_r, split_dot_digits by done.
    destruct (int_digits (n / p)) as [|c cs] eqn:E; [done|].
    cbn [is_nil andb]. rewrite Hv. subst p. simpl.
    by rewrite N.div_1_r.
  - rewrite split_dot_digits_dot by done.
    destruct (int_digits (n / p)) as [|c cs] eqn:E; [done|].
    cbn [is_nil andb]. rewrite Hv, digits_value_lsd, lsd_digits_length.
    fold p. rewrite N.Div0.mod_mod by done.
    do 2 f_equal. pose proof (N.div_mod n p Hp). lia.
Qed.

Lemma finite_digits_not_keyword n dp :
  finite_digits n dp <> list_ascii_of_string "Infinity".
Proof.
  destruct (finite_digits_head n dp) as (c & rest & -> & [d Hd]).
  intros [= -> _]. discriminate Hd.
Qed.

Lemma split_sign_minus rest : split_sign ("-"%char :: rest) = (true, rest).
Proof. reflexivity. Qed.

Lemma split_sign_digits n dp :
  split_sign (finite_digits n dp) = (false, finite_digits n dp).
Proof.
  destruct (finite_digits_head n dp) as (c & rest & -> & Hc).
  unfold split_sign.
  destruct (Ascii.eqb_spec c "-") as [->|_]; [|done].
  by apply is_digit_not_minus in Hc.
Qed.

(** Reading back what [toFixed] wrote gives the same decimal. *)
Lemma ofString_toFixed x : wf x = true -> ofString (toFixed x) = x.
Proof.
  destruct x as [|[]|m dp]; [done..|]. intros Hwf.
  unfold ofString, toFixed.
  rewrite list_ascii_of_string_of_list_ascii.
  destruct (m <? 0)%Z eqn:Hneg.
  - change (["-"%char] ++ ?l) with ("-"%char :: l).
    rewrite split_sign_minus.
    rewrite decide_False by apply finite_digits_not_keyword.
    rewrite parse_finite_digits, N2Z.inj_abs_N.
    apply Z.ltb_lt in Hneg. rewrite Z.abs_neq, Z.opp_involutive by lia.
    by apply finite_wf.
  - rewrite app_nil_l, split_sign_digits.
    rewrite decide_False by apply finite_digits_not_keyword.
    rewrite parse_finite_digits, N2Z.inj_abs_N.
    apply Z.ltb_ge in Hneg. rewrite Z.abs_eq by lia.
    by apply finite_wf.
Qed.

Lemma P10_pos d : (0 < P10 d)%Z.
Proof. unfold P10. apply Z.pow_pos_nonneg; lia. Qed.

Lemma P10_add a b : P10 (a + b) = (P10 a * P10 b)%Z.
Proof. unfold P10. rewrite Nat2Z.inj_add, Z.pow_add_r; lia. Qed.

Lemma P10_succ d : P10 (S d) = (10 * P10 d)%Z.
Proof. unfold P10. rewrite Nat2Z.inj_succ, Z.pow_succ_r; lia. Qed.

Lemma scaled_spec m dp d :
  (dp <= d)%nat -> (scaled m dp d * P10 dp = m * P10 d)%Z.
Proof.
  intros Hle. unfold scaled. fold (P10 (d - dp)).
  replace d with ((d - dp) + dp)%nat at 2 by lia.
  rewrite P10_add. ring.
Qed.

Lemma normalize_sameval m d :
  sameval (normalize m d).1 (normalize m d).2 m d.
Proof.
  unfold sameval. revert m. induction d as [|k IH]; intros m; [done|].
  cbn [normalize]. destruct (m mod 10 =? 0)%Z eqn:E; [|done].
  apply Z.eqb_eq, Z.mod_divide in E; [|lia]. destruct E as [q ->].
  rewrite Z.div_mul, P10_succ by lia.
  transitivity (10 * ((normalize q k).1 * P10 k))%Z; [ring|].
  rewrite IH. ring.
Qed.

Lemma finite_sameval m d :
  exists m' d', finite m d = Finite m' d' /\ sameval m' d' m d /\
                wf (Finite m' d') = true.
Proof.
  unfold finite. pose proof (normalize_sameval m d) as Hs.
  pose proof (wf_normalize m d) as Hw.
  destruct (normalize m d) as [m' d']. by exists m', d'.
Qed.

(** A decimal has one representation without trailing zeros. *)
Lemma wf_sameval_lt m1 d1 m2 d2 :
  (d1 < d2)%nat -> wf (Finite m2 d2) = true -> ~ sameval m1 d1 m2 d2.
Proof.
  unfold sameval. intros Hlt Hwf Hs.
  replace d2 with (S (d2 - S d1) + d1)%nat in Hs, Hwf by lia.
  rewrite P10_add, P10_succ in Hs.
  assert (Hm : m2 = (10 * (m1 * P10 (d2 - S d1)))%Z).
  { apply Z.mul_reg_r with (P10 d1); [pose proof (P10_pos d1); lia|].
    rewrite <- Hs. ring. }
  cbn [wf Nat.add] in Hwf. apply negb_true_iff, Z.eqb_neq in Hwf.
  apply Hwf. rewrite Hm, Z.mul_comm. apply Z.mod_mul. lia.
Qed.

Lemma wf_unique m1 d1 m2 d2 :
  wf (Finite m1 d1) = true -> wf (Finite m2 d2) = true ->
  sameval m1 d1 m2 d2 -> Finite m1 d1 = Finite m2 d2.
Proof.
  intros H1 H2 Hs.
  destruct (lt_eq_lt_dec d1 d2) as [[Hlt| ->]|Hgt].
  - by destruct (wf_sameval_lt m1 d1 m2 d2).
  - f_equal. unfold sameval in Hs.
    apply Z.mul_reg_r with (P10 d2); [pose proof (P10_pos d2); lia|done].
  - destruct (wf_sameval_lt m2 d2 m1 d1); [done..|].
    unfold sameval in *. done.
Qed.

(** [plus] is exact: the sum of two finite decimals is the decimal of
    their sum. *)
Lemma plus_finite a da b db :
  exists m d, plus (Finite a da) (Finite b db) = Finite m d /\
    wf (Finite m d) = true /\
    (m * (P10 da * P10 db) = (a * P10 db + b * P10 da) * P10 d)%Z.
Proof.
  cbn [plus]. set (D := Nat.max da db).
  destruct (finite_sameval (scaled a da D + scaled b db D) D)
    as (m & d & -> & Hs & Hw).
  exists m, d. split; [done|]. split; [done|].
  unfold sameval in Hs.
  pose proof (scaled_spec a da D ltac:(lia)) as Ha.
  pose proof (scaled_spec b db D ltac:(lia)) as Hb.
  apply Z.mul_reg_r with (P10 D); [pose proof (P10_pos D); lia|].
  transitivity (m * P10 D * (P10 da * P10 db))%Z; [ring|].
  rewrite Hs.
  transitivity ((scaled a da D * P10 da * P10 db +
                 scaled b db D * P10 db * P10 da) * P10 d)%Z; [ring|].
  rewrite Ha, Hb. ring.
Qed.

(** Subtracting and adding back the same finite decimal is the identity:
    no rounding takes place. *)
Lemma minus_plus x y :
  wf x = true -> isFinite x = true -> isFinite y = true ->
  plus (minus x y) y = x.
Proof.
  destruct x as [| |a da]; [done..|]. destruct y as [| |b db]; [done..|].
  intros Hwf _ _. unfold minus. cbn [negated].
  destruct (plus_finite a da (- b) db) as (m1 & d1 & -> & Hw1 & H1).
  destruct (plus_finite m1 d1 b db) as (m2 & d2 & -> & Hw2 & H2).
  apply wf_unique; [done..|]. unfold sameval.
  set (x := P10 da) in *. set (y := P10 db) in *.
  set (z := P10 d1) in *. set (w := P10 d2) in *.
  apply Z.mul_reg_r with (z * y * y)%Z.
  { pose proof (P10_pos d1). pose proof (P10_pos db). subst y z. nia. }
  transitivity ((m2 * (z * y)) * (x * y))%Z; [ring|].
  rewrite H2.
  transitivity ((m1 * (x * y) * y + b * z * x * y) * w)%Z; [ring|].
  rewrite H1. ring.
Qed.

Lemma toFixed_nonempty x : toFixed x <> "".
Proof.
  destruct x as [|[]|m dp]; [done..|]. unfold toFixed.
  destruct (finite_digits_head (Z.abs_N m) dp) as (c & rest & -> & _).
  by destruct (m <? 0)%Z.
Qed.

End BigNumberFacts.

Module BufferFacts.
Import Buffer.

Lemma decode_hex_byte b rest :
  decode_hex (hex_char (Byte.to_N b / 16) :: hex_char (Byte.to_N b mod 16)
              :: rest) = b :: decode_hex rest.
Proof. destruct b; reflexivity. Qed.

Lemma decode_hex_chars bs : decode_hex (hex_chars bs) = bs.
Proof.
  induction bs as [|b bs IH]; [done|].
  cbn [hex_chars]. rewrite decode_hex_byte. by f_equal.
Qed.

Lemma from_hex_toString bs : from_hex (toString_hex bs) = bs.
Proof.
  unfold from_hex, toString_hex.
  rewrite list_ascii_of_string_of_list_ascii. apply decode_hex_chars.
Qed.

Lemma toString_hex_empty bs : toString_hex bs = "" <-> bs = [].
Proof.
  split; [|by intros ->]. by destruct bs.
Qed.

End BufferFacts.

(** * The raw codec *)

Section CodecFacts.

Import BigNumberFacts BufferFacts.

Lemma truthy_toFixed x : truthy_string (Some (BigNumber.toFixed x)) = true.
Proof.
  simpl. apply negb_true_iff, String.eqb_neq, toFixed_nonempty.
Qed.

(** A decimal field that is present is written, read back and unchanged; one
    that is absent stays absent. *)
Lemma optional_decimal_roundtrip (o : option BigNumber) :
  wf_option o = true ->
  (if truthy_string
        (if truthy_object o then BigNumber.toFixed <$> o else None)
   then Some (BigNumber.ofString
                (default ""
                   (if truthy_object o then BigNumber.toFixed <$> o
                    else None)))
   else None) = o.
Proof.
  destruct o as [x|]; [|done]. intros Hwf.
  cbn [truthy_object fmap option_fmap option_map default].
  rewrite truthy_toFixed. f_equal. by apply ofString_toFixed.
Qed.

Lemma data_roundtrip (o : option Buffer) :
  o <> Some [] ->
  (if truthy_string
        (if truthy_object o then Buffer.toString_hex <$> o else None)
   then Some (Buffer.from_hex
                (default ""
                   (if truthy_object o then Buffer.toString_hex <$> o
                    else None)))
   else None) = o.
Proof.
  destruct o as [bs|]; [|done]. intros Hne.
  cbn [truthy_object fmap option_fmap option_map default truthy_string].
  destruct (String.eqb_spec (Buffer.toString_hex bs) "") as [E|_].
  - apply toString_hex_empty in E. by subst.
  - cbn [negb]. f_equal. apply from_hex_toString.
Qed.

(** [fromTransactionRaw] property by property. *)
Lemma fromTransactionRaw_fields (rawTx : TransactionRaw) :
  fromTransactionRaw rawTx =
  {| family := TransactionRaw.family rawTx;
     mode := TransactionRaw.mode rawTx;
     amount := BigNumber.ofString (TransactionRaw.amount rawTx);
     recipient := TransactionRaw.recipient rawTx;
     useAllAmount := TransactionRaw.useAllAmount rawTx;
     subAccountId := TransactionRaw.subAccountId rawTx;
     feesStrategy := TransactionRaw.feesStrategy rawTx;
     chainId := TransactionRaw.chainId rawTx;
     nonce := TransactionRaw.nonce rawTx;
     gasLimit := BigNumber.ofString (TransactionRaw.gasLimit rawTx);
     data :=
       if truthy_string (TransactionRaw.data rawTx)
       then Some (Buffer.from_hex (default "" (TransactionRaw.data rawTx)))
       else None;
     gasPrice :=
       if truthy_string (TransactionRaw.gasPrice rawTx)
       then Some (BigNumber.ofString
                    (default "" (TransactionRaw.gasPrice rawTx)))
       else None;
     maxFeePerGas :=
       if truthy_string (TransactionRaw.maxFeePerGas rawTx)
       then Some (BigNumber.ofString
                    (default "" (TransactionRaw.maxFeePerGas rawTx)))
       else None;
     maxPriorityFeePerGas :=
       if truthy_string (TransactionRaw.maxPriorityFeePerGas rawTx)
       then Some (BigNumber.ofString
                    (default "" (TransactionRaw.maxPriorityFeePerGas rawTx)))
       else None;
     type := Some (Number (TransactionRaw.type rawTx)) |}.
Proof.
  unfold fromTransactionRaw.
  destruct (truthy_string (TransactionRaw.data rawTx)),
    (truthy_string (TransactionRaw.gasPrice rawTx)),
    (truthy_string (TransactionRaw.maxFeePerGas rawTx)),
    (truthy_string (TransactionRaw.maxPriorityFeePerGas rawTx));
    reflexivity.
Qed.

(** C1 (as amended): for every transaction whose decimals are [BigNumber]
    values, whose payload is absent or non-empty and whose [type] is
    present, [fromTransactionRaw (toTransactionRaw tx)] equals [tx] field
    for field: decimals keep their exact value, the payload comes back from
    hex, absent optional fee fields stay absent and present ones are
    preserved. *)
Theorem fromTransactionRaw_toTransactionRaw (tx : Transaction) :
  decimals_wf tx = true ->
  data tx <> Some [] ->
  type tx <> None ->
  fromTransactionRaw (toTransactionRaw tx) = tx.
Proof.
  destruct tx as [fam mo am re ua sa fs ci no gl da gp mf mp ty].
  unfold decimals_wf. cbn [amount gasLimit gasPrice maxFeePerGas
    maxPriorityFeePerGas data type].
  intros Hwf Hdata Hty.
  repeat (apply andb_prop in Hwf; destruct Hwf as [Hwf ?]).
  destruct ty as [n|]; [|done].
  rewrite fromTransactionRaw_fields.
  unfold toTransactionRaw, toTransactionCommonRaw.
  cbn [TransactionRaw.amount TransactionRaw.recipient
    TransactionRaw.useAllAmount TransactionRaw.subAccountId
    TransactionRaw.family TransactionRaw.mode TransactionRaw.chainId
    TransactionRaw.nonce TransactionRaw.gasLimit TransactionRaw.feesStrategy
    TransactionRaw.type TransactionRaw.data TransactionRaw.gasPrice
    TransactionRaw.maxFeePerGas TransactionRaw.maxPriorityFeePerGas
    commonRaw_amount commonRaw_recipient commonRaw_useAllAmount
    commonRaw_subAccountId amount recipient useAllAmount subAccountId family
    mode chainId nonce gasLimit feesStrategy type data gasPrice maxFeePerGas
    maxPriorityFeePerGas Number].
  rewrite !ofString_toFixed by done.
  rewrite (data_roundtrip da Hdata).
  rewrite !optional_decimal_roundtrip by done.
  reflexivity.
Qed.

(** The round trip at a legacy transfer with a two-byte payload. *)
Lemma fromTransactionRaw_toTransactionRaw_witness :
  fromTransactionRaw
    (toTransactionRaw (Examples.legacyTx (Some [Byte.xde; Byte.xad]))) =
  Examples.legacyTx (Some [Byte.xde; Byte.xad]).
Proof.
  apply fromTransactionRaw_toTransactionRaw; [reflexivity | | ]; discriminate.
Defined.

(** C1 (as stated) fails: a transaction that is valid in every respect and
    carries an empty payload does not come back; its payload is gone. *)
Lemma roundtrip_drops_empty_data :
  decimals_wf (Examples.legacyTx (Some [])) = true /\
  fromTransactionRaw (toTransactionRaw (Examples.legacyTx (Some []))) <>
  Examples.legacyTx (Some []).
Proof. split; [reflexivity|]. vm_compute. discriminate. Qed.

(** C6: the [type] of the parsed transaction is [Number(rawTx.type)]: the
    raw value when there is one, and [NaN], not 0, when there is none, as
    for the sample raw transaction without a [type]. *)
Theorem fromTransactionRaw_type :
  (forall rawTx : TransactionRaw,
     type (fromTransactionRaw rawTx) =
     Some (match TransactionRaw.type rawTx with
           | Some n => n
           | None => JsNaN
           end)) /\
  TransactionRaw.type Examples.rawWithoutType = None /\
  type (fromTransactionRaw Examples.rawWithoutType) = Some JsNaN.
Proof.
  split; [|split; reflexivity].
  intros rawTx. rewrite fromTransactionRaw_fields. reflexivity.
Qed.

(** C10: an empty payload is written as the empty string, the empty string
    is read as no payload, and so an empty payload does not survive the
    round trip. *)
Theorem empty_data_at_the_codec (tx : Transaction) (rawTx : TransactionRaw) :
  (data tx = Some [] ->
   TransactionRaw.data (toTransactionRaw tx) = Some "") /\
  (TransactionRaw.data rawTx = Some "" ->
   data (fromTransactionRaw rawTx) = None) /\
  (data tx = Some [] ->
   data (fromTransactionRaw (toTransactionRaw tx)) = None).
Proof.
  assert (Hfrom : forall r, TransactionRaw.data r = Some "" ->
                            data (fromTransactionRaw r) = None).
  { intros r Hr. rewrite fromTransactionRaw_fields. cbn [data].
    rewrite Hr. reflexivity. }
  assert (Hto : data tx = Some [] ->
                TransactionRaw.data (toTransactionRaw tx) = Some "").
  { intros Hd. unfold toTransactionRaw. cbn [TransactionRaw.data].
    rewrite Hd. reflexivity. }
  split; [done|]. split; [apply Hfrom|].
  intros Hd. apply Hfrom, Hto, Hd.
Qed.

Lemma empty_data_at_the_codec_witness :
  TransactionRaw.data (toTransactionRaw (Examples.legacyTx (Some []))) =
    Some "" /\
  data (fromTransactionRaw Examples.rawWithoutType) = None /\
  data (fromTransactionRaw
          (toTransactionRaw (Examples.legacyTx (Some [])))) = None.
Proof.
  destruct (empty_data_at_the_codec (Examples.legacyTx (Some []))
              Examples.rawWithoutType) as (H1 & H2 & H3).
  split; [apply H1; reflexivity|].
  split; [apply H2; reflexivity|apply H3; reflexivity].
Defined.

End CodecFacts.

(** * Fee classification *)

Section ClassificationFacts.

Context {exn : Type}.

(** What [getTypedTransaction] does to the heap: the object passed in loses
    the fee fields of the other fee model, and a new object is returned. *)
Lemma getTypedTransaction_run (h : heap) (l : loc) (tx : Transaction)
    (feeData : FeeData) :
  h !! l = Some tx ->
  getTypedTransaction (E := exn) l feeData h =
  Some (<[l := deletedFeeFields feeData tx]> h
          ++ [typedTransactionOf feeData tx],
        Returned (length h)).
Proof.
  intros Hl. pose proof (lookup_lt_Some _ _ _ Hl) as Hlt.
  unfold getTypedTransaction, deletedFeeFields, typedTransactionOf.
  destruct (truthy_object (FeeData.maxFeePerGas feeData)
            && truthy_object (FeeData.maxPriorityFeePerGas feeData)).
  - unfold Js.bind, Js.modify, Js.read, Js.alloc.
    rewrite Hl. cbv beta iota.
    rewrite list_lookup_insert_eq by done. cbv beta iota.
    by rewrite length_insert.
  - unfold Js.bind, Js.modify, Js.read, Js.alloc.
    rewrite Hl. cbv beta iota.
    rewrite list_lookup_insert_eq by done. cbv beta iota.
    rewrite list_insert_insert_eq.
    rewrite list_lookup_insert_eq by done. cbv beta iota.
    by rewrite length_insert.
Qed.

Lemma lookup_fresh (h : heap) (l : loc) (d x : Transaction) :
  (<[l := d]> h ++ [x]) !! length h = Some x.
Proof. apply list_lookup_middle. by rewrite length_insert. Qed.

Lemma nonFeeFields_typed (feeData : FeeData) (tx : Transaction) :
  nonFeeFields (typedTransactionOf feeData tx) = nonFeeFields tx.
Proof. unfold typedTransactionOf. by case (_ && _). Qed.

Lemma nonFeeFields_deleted (feeData : FeeData) (tx : Transaction) :
  nonFeeFields (deletedFeeFields feeData tx) = nonFeeFields tx.
Proof. unfold deletedFeeFields. by case (_ && _). Qed.

(** C3: [getTypedTransaction] returns a new transaction in one of two
    shapes.  When the fee data carries both fee-market fields the result has
    type 2 with those two fields set and no [gasPrice]; otherwise it has
    type 0, [gasPrice] set to the fee data's (zero when there is none) and
    no fee-market field. *)
Theorem getTypedTransaction_shape (h : heap) (l : loc) (tx : Transaction)
    (feeData : FeeData) :
  h !! l = Some tx ->
  exists h' r,
    getTypedTransaction (E := exn) l feeData h =
      Some (h', Returned (length h)) /\
    h' !! length h = Some r /\
    match FeeData.maxFeePerGas feeData,
          FeeData.maxPriorityFeePerGas feeData with
    | Some maxFee, Some maxPriorityFee =>
        type r = Some (JsInt 2) /\
        maxFeePerGas r = Some maxFee /\
        maxPriorityFeePerGas r = Some maxPriorityFee /\
        gasPrice r = None
    | _, _ =>
        type r = Some (JsInt 0) /\
        gasPrice r =
          Some (default BigNumber.zero (FeeData.gasPrice feeData)) /\
        maxFeePerGas r = None /\
        maxPriorityFeePerGas r = None
    end.
Proof.
  intros Hl. eexists _, (typedTransactionOf feeData tx).
  split; [by apply getTypedTransaction_run|].
  split; [apply lookup_fresh|].
  unfold typedTransactionOf.
  destruct (FeeData.maxFeePerGas feeData) as [a|],
    (FeeData.maxPriorityFeePerGas feeData) as [b|]; done.
Qed.

End ClassificationFacts.

(** * The preparer *)

Section PreparerFacts.

Context {exn : Type} {imports : Imports exn}.

Lemma prepareCoinTransaction_run (account : Account) (lt : loc) (h : heap)
    (typed : Transaction) :
  h !! lt = Some typed ->
  prepareCoinTransaction account lt h =
  if coinValidationFails account typed then Some (h, Returned lt)
  else
    match getGasEstimation account
            (with_amount (coinAmount account typed) typed) with
    | Returned g =>
        Some (h ++ [with_gasLimit g
                      (with_amount (coinAmount account typed) typed)],
              Returned (length h))
    | Thrown e => Some (h, Thrown e)
    end.
Proof.
  intros Hl. unfold prepareCoinTransaction, Js.bind, Js.read.
  rewrite Hl. cbv beta iota zeta.
  change (has_errors _ _) with (coinValidationFails account typed).
  destruct (coinValidationFails account typed); [reflexivity|].
  unfold Js.await, Js.alloc.
  change (if truthy_bool (useAllAmount typed) then _ else _)
    with (coinAmount account typed).
  by destruct (getGasEstimation _ _).
Qed.

Lemma prepareTokenTransaction_run (account : Account)
    (tokenAccount : TokenAccount) (lt : loc) (h : heap)
    (typed : Transaction) :
  h !! lt = Some typed ->
  prepareTokenTransaction account tokenAccount lt h =
  if tokenValidationFails account tokenAccount typed
  then Some (h, Returned lt)
  else
    match getTransactionData
            (with_amount (tokenAmount tokenAccount typed) typed) with
    | Thrown e => Some (h, Thrown e)
    | Returned d =>
        match getGasEstimation account
                (with_data d
                   (with_recipient
                      (contractAddress (TokenAccount.token tokenAccount))
                      typed)) with
        | Returned g =>
            Some (h ++ [with_gasLimit g (with_data d typed)],
                  Returned (length h))
        | Thrown e => Some (h, Thrown e)
        end
    end.
Proof.
  intros Hl. unfold prepareTokenTransaction, Js.bind, Js.read.
  rewrite Hl. cbv beta iota zeta.
  change (has_errors _ _)
    with (tokenValidationFails account tokenAccount typed).
  destruct (tokenValidationFails account tokenAccount typed); [reflexivity|].
  unfold Js.await, Js.alloc.
  change (if truthy_bool (useAllAmount typed) then _ else _)
    with (tokenAmount tokenAccount typed).
  destruct (getTransactionData _); [|reflexivity].
  by destruct (getGasEstimation _ _).
Qed.

Lemma prepareTransaction_run (account : Account) (l : loc) (h : heap)
    (draft : Transaction) :
  h !! l = Some draft ->
  prepareTransaction account l h =
  match getFeesEstimation (Account.currency account) with
  | Thrown e => Some (h, Thrown e)
  | Returned feeData =>
      match subAccountOf account draft with
      | Some (SubToken tokenAccount) =>
          prepareTokenTransaction account tokenAccount (length h)
      | _ => prepareCoinTransaction account (length h)
      end (<[l := deletedFeeFields feeData draft]> h
             ++ [typedTransactionOf feeData draft])
  end.
Proof.
  intros Hl. unfold prepareTransaction, Js.bind at 1, Js.await.
  destruct (getFeesEstimation _) as [feeData|e]; [|reflexivity].
  unfold Js.bind at 1, Js.read. rewrite Hl. cbv beta iota zeta.
  unfold Js.bind. rewrite (getTypedTransaction_run h l draft feeData Hl).
  reflexivity.
Qed.

Lemma coinPath_run (account : Account) (l : loc) (h : heap)
    (draft : Transaction) :
  h !! l = Some draft ->
  coinPath account l h =
  match getFeesEstimation (Account.currency account) with
  | Thrown e => Some (h, Thrown e)
  | Returned feeData =>
      prepareCoinTransaction account (length h)
        (<[l := deletedFeeFields feeData draft]> h
           ++ [typedTransactionOf feeData draft])
  end.
Proof.
  intros Hl. unfold coinPath, Js.bind at 1, Js.await.
  destruct (getFeesEstimation _) as [feeData|e]; [|reflexivity].
  unfold Js.bind. rewrite (getTypedTransaction_run h l draft feeData Hl).
  reflexivity.
Qed.

Lemma typed_useAllAmount (feeData : FeeData) (tx : Transaction) :
  useAllAmount (typedTransactionOf feeData tx) = useAllAmount tx.
Proof. unfold typedTransactionOf. by case (_ && _). Qed.

Lemma length_classified (h : heap) (l : loc) (d x : Transaction) :
  length (<[l := d]> h ++ [x]) = S (length h).
Proof. rewrite length_app, length_insert. simpl. lia. Qed.

Lemma lookup_classified_other (h : heap) (l l' : loc) (d x : Transaction) :
  l' <> l -> l' < length h ->
  (<[l := d]> h ++ [x]) !! l' = h !! l'.
Proof.
  intros Hne Hlt. rewrite lookup_app_l by (by rewrite length_insert).
  by apply list_lookup_insert_ne.
Qed.

Lemma lookup_classified_draft (h : heap) (l : loc) (d x : Transaction) :
  l < length h -> (<[l := d]> h ++ [x]) !! l = Some d.
Proof.
  intros Hlt. rewrite lookup_app_l by (by rewrite length_insert).
  by apply list_lookup_insert_eq.
Qed.

(** C2 (as amended): when the fee data has been fetched and validation of
    the classified transaction fails, [prepareTransaction] throws nothing:
    it returns what [getTypedTransaction] returned, the classified draft,
    which agrees with the draft on every property other than [gasPrice],
    [maxFeePerGas], [maxPriorityFeePerGas] and [type]. *)
Theorem prepareTransaction_validation_failure (account : Account) (l : loc)
    (h : heap) (draft : Transaction) (feeData : FeeData) :
  h !! l = Some draft ->
  getFeesEstimation (Account.currency account) = Returned feeData ->
  validationFails account draft (typedTransactionOf feeData draft) = true ->
  prepareTransaction account l h = getTypedTransaction l feeData h /\
  exists h',
    prepareTransaction account l h = Some (h', Returned (length h)) /\
    h' !! length h = Some (typedTransactionOf feeData draft) /\
    nonFeeFields (typedTransactionOf feeData draft) = nonFeeFields draft.
Proof.
  intros Hl Hfees Hfail.
  assert (Hrun : prepareTransaction account l h =
            Some (<[l := deletedFeeFields feeData draft]> h
                    ++ [typedTransactionOf feeData draft],
                  Returned (length h))).
  { rewrite (prepareTransaction_run account l h draft Hl), Hfees.
    unfold validationFails in Hfail.
    destruct (subAccountOf account draft) as [[ta|ca]|].
    - rewrite (prepareTokenTransaction_run _ _ _ _ _ (lookup_fresh _ _ _ _)).
      by rewrite Hfail.
    - rewrite (prepareCoinTransaction_run _ _ _ _ (lookup_fresh _ _ _ _)).
      by rewrite Hfail.
    - rewrite (prepareCoinTransaction_run _ _ _ _ (lookup_fresh _ _ _ _)).
      by rewrite Hfail. }
  split.
  - rewrite Hrun. symmetry. by apply getTypedTransaction_run.
  - eexists. split; [exact Hrun|].
    split; [apply lookup_fresh|apply nonFeeFields_typed].
Qed.

(** C4 (as amended): on the coin path with [useAllAmount] set, when
    validation passes and the gas estimate is returned, the prepared
    transaction's amount is the balance minus the fee estimated from the
    classified transaction, the total spend the code computes is that amount
    plus the fee, and for a finite balance and fee it is the balance
    exactly. *)
Theorem prepareTransaction_useAllAmount_coin (account : Account) (l : loc)
    (h : heap) (draft : Transaction) (feeData : FeeData) (g : BigNumber) :
  let typed := typedTransactionOf feeData draft in
  let B := Account.balance account in
  let F := getEstimatedFees typed in
  h !! l = Some draft ->
  getFeesEstimation (Account.currency account) = Returned feeData ->
  isTokenAccount (subAccountOf account draft) = false ->
  useAllAmount draft = Some true ->
  coinValidationFails account typed = false ->
  getGasEstimation account (with_amount (BigNumber.minus B F) typed) =
    Returned g ->
  exists h' lt r,
    prepareTransaction account l h = Some (h', Returned lt) /\
    h' !! lt = Some r /\
    amount r = BigNumber.minus B F /\
    coinTotalSpent account typed = BigNumber.plus (amount r) F /\
    (BigNumber.wf B = true -> BigNumber.isFinite B = true ->
     BigNumber.isFinite F = true -> BigNumber.plus (amount r) F = B).
Proof.
  intros typed B F Hl Hfees Hcoin Hall Hpass Hgas.
  assert (Hamount : coinAmount account typed = BigNumber.minus B F).
  { unfold coinAmount. subst typed.
    by rewrite typed_useAllAmount, Hall. }
  eexists _, _, (with_gasLimit g (with_amount (BigNumber.minus B F) typed)).
  split.
  - rewrite (prepareTransaction_run account l h draft Hl), Hfees.
    assert (Hpath :
      match subAccountOf account draft with
      | Some (SubToken tokenAccount) =>
          prepareTokenTransaction account tokenAccount (length h)
      | _ => prepareCoinTransaction account (length h)
      end = prepareCoinTransaction account (length h)).
    { by destruct (subAccountOf account draft) as [[ta|ca]|]. }
    rewrite Hpath.
    rewrite (prepareCoinTransaction_run _ _ _ _ (lookup_fresh _ _ _ _)).
    fold typed. rewrite Hpass, Hamount, Hgas. reflexivity.
  - split; [by apply list_lookup_middle|].
    split; [reflexivity|].
    split; [unfold coinTotalSpent; by rewrite Hamount|].
    intros Hwf HB HF. cbn [amount with_gasLimit with_amount].
    by apply BigNumberFacts.minus_plus.
Qed.

(** What the token path returns once validation has passed: the classified
    transaction with the payload and the gas limit merged in, and nothing
    else changed. *)
Lemma prepareTokenTransaction_prepared (account : Account)
    (tokenAccount : TokenAccount) (lt : loc) (h : heap)
    (typed : Transaction) (d : option Buffer) (g : BigNumber) :
  h !! lt = Some typed ->
  tokenValidationFails account tokenAccount typed = false ->
  getTransactionData (with_amount (tokenAmount tokenAccount typed) typed) =
    Returned d ->
  getGasEstimation account
    (with_data d
       (with_recipient (contractAddress (TokenAccount.token tokenAccount))
          typed)) = Returned g ->
  prepareTokenTransaction account tokenAccount lt h =
  Some (h ++ [with_gasLimit g (with_data d typed)], Returned (length h)).
Proof.
  intros Hl Hpass Hdata Hgas.
  rewrite (prepareTokenTransaction_run _ _ _ _ _ Hl).
  by rewrite Hpass, Hdata, Hgas.
Qed.

(** C7 (as amended): [prepareTransaction] always ends.  It leaves every
    object of the heap other than the draft as it was.  The draft itself is
    untouched when the fee data cannot be fetched; otherwise the fee fields
    of the fee model that was not selected have been deleted from it and
    its other properties are as before.  A transaction it returns is an
    object that did not exist before the call. *)
Theorem prepareTransaction_heap_effect (account : Account) (l : loc)
    (h : heap) (draft : Transaction) :
  h !! l = Some draft ->
  exists h' r,
    prepareTransaction account l h = Some (h', r) /\
    (forall l', l' <> l -> l' < length h -> h' !! l' = h !! l') /\
    h' !! l =
      Some (match getFeesEstimation (Account.currency account) with
            | Returned feeData => deletedFeeFields feeData draft
            | Thrown _ => draft
            end) /\
    (forall feeData,
       nonFeeFields (deletedFeeFields feeData draft) = nonFeeFields draft /\
       type (deletedFeeFields feeData draft) = type draft) /\
    (forall lt, r = Returned lt -> length h <= lt /\ is_Some (h' !! lt)).
Proof.
  intros Hl. pose proof (lookup_lt_Some _ _ _ Hl) as Hlt.
  assert (Hdel : forall feeData,
    nonFeeFields (deletedFeeFields feeData draft) = nonFeeFields draft /\
    type (deletedFeeFields feeData draft) = type draft).
  { intros fd. unfold deletedFeeFields. by case (_ && _). }
  rewrite (prepareTransaction_run account l h draft Hl).
  destruct (getFeesEstimation _) as [feeData|e].
  2:{ exists h, (Thrown e). repeat split; try done; apply Hdel. }
  set (d := deletedFeeFields feeData draft).
  set (typed := typedTransactionOf feeData draft).
  set (h1 := <[l := d]> h ++ [typed]).
  assert (Hfresh : h1 !! length h = Some typed) by apply lookup_fresh.
  assert (Hlen : length h1 = S (length h)) by apply length_classified.
  assert (Hother : forall l', l' <> l -> l' < length h -> h1 !! l' = h !! l')
    by (intros; by apply lookup_classified_other).
  assert (Hdraft : h1 !! l = Some d) by (by apply lookup_classified_draft).
  assert (Hgrow : forall x l', l' < length h1 -> (h1 ++ [x]) !! l' = h1 !! l')
    by (intros; by apply lookup_app_l).
  assert (Hsame : exists h' r,
    Some (h1, Returned (E := exn) (length h)) = Some (h', r) /\
    (forall l', l' <> l -> l' < length h -> h' !! l' = h !! l') /\
    h' !! l = Some d /\
    (forall feeData,
       nonFeeFields (deletedFeeFields feeData draft) = nonFeeFields draft /\
       type (deletedFeeFields feeData draft) = type draft) /\
    (forall lt, r = Returned lt -> length h <= lt /\ is_Some (h' !! lt))).
  { exists h1, (Returned (length h)).
    repeat split; try done; try apply Hdel.
    - simplify_eq. lia.
    - simplify_eq. by rewrite Hfresh. }
  assert (Hthrown : forall e : exn, exists h' r,
    Some (h1, Thrown (A := loc) e) = Some (h', r) /\
    (forall l', l' <> l -> l' < length h -> h' !! l' = h !! l') /\
    h' !! l = Some d /\
    (forall feeData,
       nonFeeFields (deletedFeeFields feeData draft) = nonFeeFields draft /\
       type (deletedFeeFields feeData draft) = type draft) /\
    (forall lt, r = Returned lt -> length h <= lt /\ is_Some (h' !! lt))).
  { intros e. exists h1, (Thrown e).
    repeat split; try done; apply Hdel. }
  assert (Hnew : forall x, exists h' r,
    Some (h1 ++ [x], Returned (E := exn) (length h1)) = Some (h', r) /\
    (forall l', l' <> l -> l' < length h -> h' !! l' = h !! l') /\
    h' !! l = Some d /\
    (forall feeData,
       nonFeeFields (deletedFeeFields feeData draft) = nonFeeFields draft /\
       type (deletedFeeFields feeData draft) = type draft) /\
    (forall lt, r = Returned lt -> length h <= lt /\ is_Some (h' !! lt))).
  { intros x. exists (h1 ++ [x]), (Returned (length h1)).
    repeat split; try done; try apply Hdel.
    - intros l' Hne Hl'. rewrite Hgrow by lia. by apply Hother.
    - rewrite Hgrow by lia. done.
    - simplify_eq. lia.
    - simplify_eq. rewrite list_lookup_middle by done. eauto. }
  destruct (subAccountOf account draft) as [[ta|ca]|].
  - rewrite (prepareTokenTransaction_run _ _ _ _ _ Hfresh).
    destruct (tokenValidationFails _ _ _); [exact Hsame|].
    destruct (getTransactionData _); [|apply Hthrown].
    destruct (getGasEstimation _ _); [apply Hnew|apply Hthrown].
  - rewrite (prepareCoinTransaction_run _ _ _ _ Hfresh).
    destruct (coinValidationFails _ _); [exact Hsame|].
    destruct (getGasEstimation _ _); [apply Hnew|apply Hthrown].
  - rewrite (prepareCoinTransaction_run _ _ _ _ Hfresh).
    destruct (coinValidationFails _ _); [exact Hsame|].
    destruct (getGasEstimation _ _); [apply Hnew|apply Hthrown].
Qed.

(** C8: for a token transaction [prepareForSignOperation] returns a new
    transaction whose recipient is the token contract address and whose
    other properties are those of the input; for any other transaction it
    returns the input itself.  The heap's objects are left as they were. *)
Theorem prepareForSignOperation_recipient (account : Account) (l : loc)
    (h : heap) (tx : Transaction) :
  h !! l = Some tx ->
  match subAccountOf account tx with
  | Some (SubToken tokenAccount) =>
      exists r,
        prepareForSignOperation account l h =
          Some (h ++ [r], Returned (length h)) /\
        recipient r = contractAddress (TokenAccount.token tokenAccount) /\
        nonRecipientFields r = nonRecipientFields tx
  | _ => prepareForSignOperation account l h = Some (h, Returned l)
  end.
Proof.
  intros Hl. unfold prepareForSignOperation, Js.bind, Js.read.
  rewrite Hl. cbv beta iota zeta.
  change (findSubAccountById account (default "" (subAccountId tx)))
    with (subAccountOf account tx).
  destruct (subAccountOf account tx) as [[ta|ca]|]; [|done..].
  eexists. split; [reflexivity|]. done.
Qed.

(** C9: on an account none of whose sub-accounts has the empty id, with a
    lookup that answers with a sub-account of the account that has the id
    asked for, [prepareTransaction] takes the coin path for every transaction
    whose [subAccountId] is absent, is empty, or is not resolved to a token
    account: none of the account's token accounts has it, or the lookup
    gives something else than a token account. *)
Theorem prepareTransaction_coin_path (account : Account) (l : loc)
    (h : heap) (tx : Transaction) :
  h !! l = Some tx ->
  (forall id s,
     findSubAccountById account id = Some s ->
     In s (Account.subAccounts account) /\ Sample.subAccountId_of s = id) ->
  (forall s,
     In s (Account.subAccounts account) -> Sample.subAccountId_of s <> "") ->
  subAccountId tx = None \/
  subAccountId tx = Some "" \/
  (exists id, subAccountId tx = Some id /\
     ((forall tokenAccount,
         In (SubToken tokenAccount) (Account.subAccounts account) ->
         TokenAccount.id tokenAccount <> id) \/
      isTokenAccount (findSubAccountById account id) = false)) ->
  prepareTransaction account l h = coinPath account l h.
Proof.
  intros Hl Hlookup Hids Hcase.
  assert (Hempty : findSubAccountById account "" = None).
  { destruct (findSubAccountById account "") as [s|] eqn:Hs; [|done].
    destruct (Hlookup _ _ Hs) as [Hin Hid]. by destruct (Hids s Hin). }
  assert (Hcoin : isTokenAccount (subAccountOf account tx) = false).
  { unfold subAccountOf.
    destruct Hcase as [-> | [-> | (id & -> & [Hnone|Hother])]];
      change (default "" None) with "";
      change (default "" (Some ?x)) with x.
    - by rewrite Hempty.
    - by rewrite Hempty.
    - destruct (findSubAccountById account id) as [[ta|ca]|] eqn:Hs;
        [|done..].
      destruct (Hlookup _ _ Hs) as [Hin Hid]. by destruct (Hnone ta Hin).
    - exact Hother. }
  rewrite (prepareTransaction_run account l h tx Hl),
    (coinPath_run account l h tx Hl).
  destruct (getFeesEstimation _); [|done].
  by destruct (subAccountOf account tx) as [[ta|ca]|].
Qed.

End PreparerFacts.

(** * The theorems at sample inputs *)

Section Instances.

Import Examples.

(** Classification of a legacy draft on a fee-market network. *)
Lemma getTypedTransaction_shape_witness :
  [draft receiver 5 false None] !! 0 = Some (draft receiver 5 false None) /\
  exists h' r,
    getTypedTransaction (E := string) 0 marketFees
      [draft receiver 5 false None] = Some (h', Returned 1) /\
    h' !! 1 = Some r /\
    type r = Some (JsInt 2) /\
    maxFeePerGas r = Some (BigNumber.ofZ 2000) /\
    maxPriorityFeePerGas r = Some (BigNumber.ofZ 100) /\
    gasPrice r = None.
Proof.
  split; [reflexivity|].
  apply (getTypedTransaction_shape (exn := string)
           [draft receiver 5 false None] 0 (draft receiver 5 false None)
           marketFees).
  reflexivity.
Defined.

(** A draft that asks for twice the balance: validation fails and the
    classified draft comes back. *)
Lemma prepareTransaction_validation_failure_witness :
  validationFails (imports := onLegacy) coinAccount
    (draft receiver 200000000 false None)
    (typedTransactionOf legacyFees (draft receiver 200000000 false None)) =
    true /\
  prepareTransaction (imports := onLegacy) coinAccount 0
    [draft receiver 200000000 false None] =
  getTypedTransaction 0 legacyFees [draft receiver 200000000 false None] /\
  exists h',
    prepareTransaction (imports := onLegacy) coinAccount 0
      [draft receiver 200000000 false None] = Some (h', Returned 1) /\
    h' !! 1 =
      Some (typedTransactionOf legacyFees
              (draft receiver 200000000 false None)) /\
    nonFeeFields
      (typedTransactionOf legacyFees (draft receiver 200000000 false None)) =
    nonFeeFields (draft receiver 200000000 false None).
Proof.
  split; [vm_compute; reflexivity|].
  apply (prepareTransaction_validation_failure (imports := onLegacy)
           coinAccount 0 [draft receiver 200000000 false None]
           (draft receiver 200000000 false None) legacyFees);
    [reflexivity | reflexivity | vm_compute; reflexivity].
Defined.

(** C2 (as stated) fails: the draft asks for twice the balance, validation
    fails, and the transaction returned differs from the draft, whose gas
    price of 30 has become the network's 1000. *)
Lemma validation_failure_returns_classified_draft :
  validationFails (imports := onLegacy) coinAccount
    (draft receiver 200000000 false None)
    (typedTransactionOf legacyFees (draft receiver 200000000 false None)) =
    true /\
  match prepareTransaction (imports := onLegacy) coinAccount 0
          [draft receiver 200000000 false None] with
  | Some (h', Returned lt) =>
      h' !! lt <> Some (draft receiver 200000000 false None)
  | _ => False
  end.
Proof. split; [vm_compute; reflexivity|]. vm_compute. congruence. Qed.

(** The spec's example: balance 1.00000000, fee 0.00010000, send all. *)
Lemma prepareTransaction_useAllAmount_coin_witness :
  coinValidationFails (imports := onLegacy) coinAccount
    (typedTransactionOf legacyFees (draft receiver 0 true None)) = false /\
  exists h' lt r,
    prepareTransaction (imports := onLegacy) coinAccount 0
      [draft receiver 0 true None] = Some (h', Returned lt) /\
    h' !! lt = Some r /\
    amount r =
      BigNumber.minus (BigNumber.ofZ 100000000) (BigNumber.ofZ 10000) /\
    coinTotalSpent (imports := onLegacy) coinAccount
      (typedTransactionOf legacyFees (draft receiver 0 true None)) =
      BigNumber.plus (amount r) (BigNumber.ofZ 10000) /\
    (BigNumber.wf (BigNumber.ofZ 100000000) = true ->
     BigNumber.isFinite (BigNumber.ofZ 100000000) = true ->
     BigNumber.isFinite (BigNumber.ofZ 10000) = true ->
     BigNumber.plus (amount r) (BigNumber.ofZ 10000) =
     BigNumber.ofZ 100000000).
Proof.
  split; [vm_compute; reflexivity|].
  apply (prepareTransaction_useAllAmount_coin (imports := onLegacy)
           coinAccount 0 [draft receiver 0 true None]
           (draft receiver 0 true None) legacyFees (BigNumber.ofZ 21000));
    reflexivity.
Defined.

(** C4 (as stated) fails: the same send-all draft without a recipient does
    not pass validation, and the transaction returned keeps the draft's
    amount of zero. *)
Lemma useAllAmount_without_recipient_keeps_amount :
  useAllAmount (draft "" 0 true None) = Some true /\
  isTokenAccount
    (subAccountOf (imports := onLegacy) coinAccount (draft "" 0 true None)) =
    false /\
  match prepareTransaction (imports := onLegacy) coinAccount 0
          [draft "" 0 true None] with
  | Some (h', Returned lt) =>
      amount <$> h' !! lt <>
      Some (BigNumber.minus (Account.balance coinAccount)
              (getEstimatedFees (Imports := onLegacy)
                 (typedTransactionOf legacyFees (draft "" 0 true None))))
  | _ => False
  end.
Proof.
  split; [reflexivity|]. split; [reflexivity|]. vm_compute. congruence.
Qed.

(** C5: a send-all token transfer that passes validation.  The payload
    carries the token balance of 50000000, but the amount of the
    transaction returned is still the draft's zero. *)
Theorem token_useAllAmount_keeps_draft_amount :
  tokenValidationFails (imports := onLegacy) tokenHolder
    (tokenAccount tokenId)
    (typedTransactionOf legacyFees
       (draft receiver 0 true (Some tokenId))) = false /\
  TokenAccount.balance (tokenAccount tokenId) = BigNumber.ofZ 50000000 /\
  match prepareTransaction (imports := onLegacy) tokenHolder 0
          [draft receiver 0 true (Some tokenId)] with
  | Some (h', Returned lt) =>
      amount <$> h' !! lt = Some (BigNumber.ofZ 0) /\
      data <$> h' !! lt =
        Some (match getTransactionData (imports := onLegacy)
                      (with_amount (BigNumber.ofZ 50000000)
                         (draft receiver 0 true (Some tokenId))) with
              | Returned d => d
              | Thrown _ => None
              end)
  | _ => False
  end.
Proof.
  split; [vm_compute; reflexivity|]. split; [reflexivity|].
  vm_compute. split; reflexivity.
Qed.

(** A draft with a gas price prepared on a fee-market network. *)
Lemma prepareTransaction_heap_effect_witness :
  exists h' r,
    prepareTransaction (imports := onMarket) coinAccount 0
      [draft receiver 5 false None] = Some (h', r) /\
    (forall l', l' <> 0 -> l' < 1 -> h' !! l' =
       [draft receiver 5 false None] !! l') /\
    h' !! 0 =
      Some (deletedFeeFields marketFees (draft receiver 5 false None)) /\
    (forall feeData,
       nonFeeFields
         (deletedFeeFields feeData (draft receiver 5 false None)) =
       nonFeeFields (draft receiver 5 false None) /\
       type (deletedFeeFields feeData (draft receiver 5 false None)) =
       type (draft receiver 5 false None)) /\
    (forall lt, r = Returned lt -> 1 <= lt /\ is_Some (h' !! lt)).
Proof.
  apply (prepareTransaction_heap_effect (imports := onMarket) coinAccount 0
           [draft receiver 5 false None] (draft receiver 5 false None)).
  reflexivity.
Defined.

(** C7 (as stated) fails: after preparing on a fee-market network the draft
    passed in has lost its gas price. *)
Lemma prepareTransaction_deletes_gasPrice :
  match prepareTransaction (imports := onMarket) coinAccount 0
          [draft receiver 5 false None] with
  | Some (h', _) =>
      h' !! 0 <> Some (draft receiver 5 false None) /\
      gasPrice <$> h' !! 0 = Some None /\
      gasPrice (draft receiver 5 false None) = Some (BigNumber.ofZ 30)
  | None => False
  end.
Proof. vm_compute. split; [congruence|]. split; reflexivity. Qed.

(** Signing a token transfer: the recipient becomes the contract. *)
Lemma prepareForSignOperation_recipient_witness :
  [draft receiver 5 false (Some tokenId)] !! 0 =
    Some (draft receiver 5 false (Some tokenId)) /\
  exists r,
    prepareForSignOperation (imports := onLegacy) tokenHolder 0
      [draft receiver 5 false (Some tokenId)] =
      Some ([draft receiver 5 false (Some tokenId)] ++ [r], Returned 1) /\
    recipient r = contract /\
    nonRecipientFields r =
    nonRecipientFields (draft receiver 5 false (Some tokenId)).
Proof.
  split; [reflexivity|].
  apply (prepareForSignOperation_recipient (imports := onLegacy) tokenHolder
           0 [draft receiver 5 false (Some tokenId)]
           (draft receiver 5 false (Some tokenId))).
  reflexivity.
Defined.

(** The sample lookup answers with a sub-account of the account that has
    the id asked for. *)
Lemma sample_lookup_sound (account : Account) (id : string)
    (s : SubAccount) :
  Sample.findSubAccountById account id = Some s ->
  In s (Account.subAccounts account) /\ Sample.subAccountId_of s = id.
Proof.
  unfold Sample.findSubAccountById. intros [Hin Hid]%find_some.
  split; [done|]. by apply String.eqb_eq.
Qed.

(** A draft without a sub-account on an account that holds a token. *)
Lemma prepareTransaction_coin_path_witness :
  prepareTransaction (imports := onLegacy) tokenHolder 0
    [draft receiver 5 false None] =
  coinPath (imports := onLegacy) tokenHolder 0 [draft receiver 5 false None].
Proof.
  apply (prepareTransaction_coin_path (imports := onLegacy) tokenHolder 0
           [draft receiver 5 false None] (draft receiver 5 false None)).
  - reflexivity.
  - apply sample_lookup_sound.
  - intros s [<-|[]]. discriminate.
  - by left.
Defined.

(** The condition on the ids is needed: on an account whose token
    sub-account has the empty id, a draft without [subAccountId] is looked
    up as the empty string, the lookup finds that sub-account and the token
    path is taken. *)
Lemma empty_id_takes_token_path :
  subAccountId (draft receiver 0 true None) = None /\
  prepareTransaction (imports := onLegacy) oddAccount 0
    [draft receiver 0 true None] <>
  coinPath (imports := onLegacy) oddAccount 0 [draft receiver 0 true None].
Proof. split; [reflexivity|]. vm_compute. congruence. Qed.

End Instances.

(** * More about the pipeline *)

Section PipelineFacts.

Context {exn : Type} {imports : Imports exn}.

Lemma hasOneFeeModel_typed (feeData : FeeData) (tx : Transaction) :
  hasOneFeeModel (typedTransactionOf feeData tx) = true.
Proof.
  unfold typedTransactionOf.
  by destruct (FeeData.maxFeePerGas feeData),
    (FeeData.maxPriorityFeePerGas feeData).
Qed.

(** X1: a transaction that [prepareTransaction] returns, on whichever path
    and whether validation passed or not, has exactly one fee model: type 0
    with a gas price and no fee-market field, or type 2 with both fee-market
    fields and no gas price. *)
Theorem prepareTransaction_one_fee_model (account : Account) (l lt : loc)
    (h h' : heap) (draft : Transaction) :
  h !! l = Some draft ->
  prepareTransaction account l h = Some (h', Returned lt) ->
  exists r, h' !! lt = Some r /\ hasOneFeeModel r = true.
Proof.
  intros Hl. rewrite (prepareTransaction_run account l h draft Hl).
  destruct (getFeesEstimation _) as [feeData|e]; [|done].
  set (typed := typedTransactionOf feeData draft).
  set (h1 := <[l := deletedFeeFields feeData draft]> h ++ [typed]).
  assert (Hfresh : h1 !! length h = Some typed) by apply lookup_fresh.
  assert (Htyped : hasOneFeeModel typed = true)
    by apply hasOneFeeModel_typed.
  assert (Hcoin : prepareCoinTransaction account (length h) h1 =
                    Some (h', Returned lt) ->
                  exists r, h' !! lt = Some r /\ hasOneFeeModel r = true).
  { rewrite (prepareCoinTransaction_run _ _ _ _ Hfresh).
    destruct (coinValidationFails _ _).
    - intros [= <- <-]. eauto.
    - destruct (getGasEstimation _ _) as [g|e]; [|done].
      intros [= <- <-]. eexists. split; [by apply list_lookup_middle|].
      exact Htyped. }
  destruct (subAccountOf account draft) as [[ta|ca]|]; [|done..].
  rewrite (prepareTokenTransaction_run _ _ _ _ _ Hfresh).
  destruct (tokenValidationFails _ _ _).
  - intros [= <- <-]. eauto.
  - destruct (getTransactionData _) as [d|e]; [|done].
    destruct (getGasEstimation _ _) as [g|e]; [|done].
    intros [= <- <-]. eexists. split; [by apply list_lookup_middle|].
    exact Htyped.
Qed.

Lemma with_amount_same (tx : Transaction) : with_amount (amount tx) tx = tx.
Proof. by destruct tx. Qed.

Lemma typed_amount (feeData : FeeData) (tx : Transaction) :
  amount (typedTransactionOf feeData tx) = amount tx.
Proof. unfold typedTransactionOf. by case (_ && _). Qed.

Lemma typed_gasLimit (feeData : FeeData) (tx : Transaction) :
  gasLimit (typedTransactionOf feeData tx) = gasLimit tx.
Proof. unfold typedTransactionOf. by case (_ && _). Qed.

Lemma typed_subAccountId (feeData : FeeData) (tx : Transaction) :
  subAccountId (typedTransactionOf feeData tx) = subAccountId tx.
Proof. unfold typedTransactionOf. by case (_ && _). Qed.

Lemma typed_recipient (feeData : FeeData) (tx : Transaction) :
  recipient (typedTransactionOf feeData tx) = recipient tx.
Proof. unfold typedTransactionOf. by case (_ && _). Qed.

Lemma with_gasLimit_same (tx : Transaction) :
  with_gasLimit (gasLimit tx) tx = tx.
Proof. by destruct tx. Qed.

(** X2: when [prepareTransaction] throws, and what it has done by then.
    An error reaches the caller in exactly these ways.  The fee data fetch
    threw it: then no object has been touched.  Or the fee data came,
    validation passed, and the error was thrown by the gas estimate asked
    for the transaction the path built, or, on the token path, by the ABI
    encoder called with the draft's recipient and the amount to transfer:
    then the draft has already been classified in place and the classified
    transaction is the one new object. *)
Theorem prepareTransaction_thrown (account : Account) (l : loc)
    (h h' : heap) (draft : Transaction) (e : exn) :
  h !! l = Some draft ->
  prepareTransaction account l h = Some (h', Thrown e) <->
  (getFeesEstimation (Account.currency account) = Thrown e /\ h' = h) \/
  exists feeData,
    let typed := typedTransactionOf feeData draft in
    getFeesEstimation (Account.currency account) = Returned feeData /\
    h' = <[l := deletedFeeFields feeData draft]> h ++ [typed] /\
    validationFails account draft typed = false /\
    match subAccountOf account draft with
    | Some (SubToken tokenAccount) =>
        encodeFunctionData_transfer (recipient draft)
          (BigNumber.toFixed (tokenAmount tokenAccount typed)) = Thrown e \/
        exists d,
          getTransactionData
            (with_amount (tokenAmount tokenAccount typed) typed) =
            Returned d /\
          getGasEstimation account
            (with_data d
               (with_recipient
                  (contractAddress (TokenAccount.token tokenAccount))
                  typed)) = Thrown e
    | _ =>
        getGasEstimation account
          (with_amount (coinAmount account typed) typed) = Thrown e
    end.
Proof.
  intros Hl. rewrite (prepareTransaction_run account l h draft Hl).
  destruct (getFeesEstimation _) as [feeData|e0].
  2:{ split.
      - intros [= <- <-]. by left.
      - intros [[[= ->] ->]|(feeData & [=] & _)]. done. }
  set (typed := typedTransactionOf feeData draft).
  set (h1 := <[l := deletedFeeFields feeData draft]> h ++ [typed]).
  assert (Hfresh : h1 !! length h = Some typed) by apply lookup_fresh.
  assert (Hcoin :
    prepareCoinTransaction account (length h) h1 = Some (h', Thrown e) <->
    h' = h1 /\ coinValidationFails account typed = false /\
    getGasEstimation account
      (with_amount (coinAmount account typed) typed) = Thrown e).
  { rewrite (prepareCoinTransaction_run _ _ _ _ Hfresh).
    destruct (coinValidationFails _ _).
    - split; [done|]. by intros (_ & [=] & _).
    - destruct (getGasEstimation _ _) as [g|e1].
      + split; [done|]. by intros (_ & _ & [=]).
      + split; [by intros [= <- <-]|]. by intros (-> & _ & [= ->]). }
  assert (Hencode : forall a,
    getTransactionData (with_amount a typed) = Thrown e <->
    encodeFunctionData_transfer (recipient draft) (BigNumber.toFixed a) =
      Thrown e).
  { intros a. unfold getTransactionData.
    replace (recipient (with_amount a typed)) with (recipient draft)
      by (symmetry; apply typed_recipient).
    cbn [amount with_amount].
    destruct (encodeFunctionData_transfer _ _) as [s|e1]; [done|].
    split; by intros [= ->]. }
  unfold validationFails.
  destruct (subAccountOf account draft) as [[ta|ca]|].
  - rewrite (prepareTokenTransaction_run _ _ _ _ _ Hfresh).
    split.
    + intros Hrun. right. exists feeData. cbv zeta. fold typed h1.
      split; [done|].
      destruct (tokenValidationFails _ _ _); [done|].
      destruct (getTransactionData _) as [d|e1] eqn:Hd.
      * destruct (getGasEstimation account (with_data d _)) as [g|e2] eqn:Hg;
          [done|].
        injection Hrun as <- <-. repeat split; try done.
        right. by exists d.
      * injection Hrun as <- <-. repeat split; try done.
        left. by apply Hencode.
    + intros [[[=] _]|(feeData' & [= <-] & -> & Hpass & Hcall)].
      fold typed h1 in Hpass, Hcall |- *. rewrite Hpass.
      destruct Hcall as [He|(d & Hd & Hg)].
      * apply Hencode in He. by rewrite He.
      * by rewrite Hd, Hg.
  - rewrite Hcoin. split.
    + intros (-> & Hpass & Hg). right. by exists feeData.
    + by intros [[[=] _]|(feeData' & [= <-] & -> & Hpass & Hg)].
  - rewrite Hcoin. split.
    + intros (-> & Hpass & Hg). right. by exists feeData.
    + by intros [[[=] _]|(feeData' & [= <-] & -> & Hpass & Hg)].
Qed.

(** X3: on the coin path without [useAllAmount], once validation has
    passed and the gas estimate is in, the prepared transaction is the
    classified draft with the estimated gas limit: the amount is the
    draft's, and putting the draft's gas limit back gives the classified
    draft again. *)
Theorem prepareTransaction_coin_fixed_amount (account : Account) (l : loc)
    (h : heap) (draft : Transaction) (feeData : FeeData) (g : BigNumber) :
  h !! l = Some draft ->
  getFeesEstimation (Account.currency account) = Returned feeData ->
  isTokenAccount (subAccountOf account draft) = false ->
  truthy_bool (useAllAmount draft) = false ->
  coinValidationFails account (typedTransactionOf feeData draft) = false ->
  getGasEstimation account (typedTransactionOf feeData draft) = Returned g ->
  exists h' lt r,
    prepareTransaction account l h = Some (h', Returned lt) /\
    h' !! lt = Some r /\
    gasLimit r = g /\
    amount r = amount draft /\
    with_gasLimit (gasLimit draft) r = typedTransactionOf feeData draft.
Proof.
  intros Hl Hfees Hcoin Hall Hpass Hgas.
  set (typed := typedTransactionOf feeData draft) in *.
  assert (Hamount : coinAmount account typed = amount typed).
  { unfold coinAmount. subst typed. by rewrite typed_useAllAmount, Hall. }
  eexists _, _, (with_gasLimit g typed). split.
  - rewrite (prepareTransaction_run account l h draft Hl), Hfees.
    assert (Hpath :
      match subAccountOf account draft with
      | Some (SubToken tokenAccount) =>
          prepareTokenTransaction account tokenAccount (length h)
      | _ => prepareCoinTransaction account (length h)
      end = prepareCoinTransaction account (length h)).
    { by destruct (subAccountOf account draft) as [[ta|ca]|]. }
    rewrite Hpath.
    rewrite (prepareCoinTransaction_run _ _ _ _ (lookup_fresh _ _ _ _)).
    fold typed. rewrite Hpass, Hamount, with_amount_same, Hgas. reflexivity.
  - split; [by apply list_lookup_middle|]. split; [reflexivity|].
    split; [apply typed_amount|].
    subst typed. rewrite <- (typed_gasLimit feeData draft).
    by destruct (typedTransactionOf feeData draft).
Qed.

(** X4: preparing a token transfer and then preparing it for signing.  The
    prepared transaction still shows the recipient the user entered; the
    transaction handed to the signer has the token contract as recipient and
    carries the same payload and gas limit. *)
Theorem prepare_then_sign_token (account : Account)
    (tokenAccount : TokenAccount) (l : loc) (h : heap)
    (draft : Transaction) (feeData : FeeData) (d : option Buffer)
    (g : BigNumber) :
  let typed := typedTransactionOf feeData draft in
  h !! l = Some draft ->
  getFeesEstimation (Account.currency account) = Returned feeData ->
  subAccountOf account draft = Some (SubToken tokenAccount) ->
  tokenValidationFails account tokenAccount typed = false ->
  getTransactionData (with_amount (tokenAmount tokenAccount typed) typed) =
    Returned d ->
  getGasEstimation account
    (with_data d
       (with_recipient (contractAddress (TokenAccount.token tokenAccount))
          typed)) = Returned g ->
  exists h1 lt prepared h2 ls signed,
    prepareTransaction account l h = Some (h1, Returned lt) /\
    h1 !! lt = Some prepared /\
    recipient prepared = recipient draft /\
    prepareForSignOperation account lt h1 = Some (h2, Returned ls) /\
    h2 !! ls = Some signed /\
    h2 !! lt = Some prepared /\
    recipient signed = contractAddress (TokenAccount.token tokenAccount) /\
    data signed = d /\ data prepared = d /\
    gasLimit signed = g /\
    nonRecipientFields signed = nonRecipientFields prepared.
Proof.
  intros typed Hl Hfees Htoken Hpass Hdata Hgas.
  set (h0 := <[l := deletedFeeFields feeData draft]> h ++ [typed]).
  set (prepared := with_gasLimit g (with_data d typed)).
  set (signed :=
    with_recipient (contractAddress (TokenAccount.token tokenAccount))
      prepared).
  exists (h0 ++ [prepared]), (length h0), prepared,
    ((h0 ++ [prepared]) ++ [signed]), (length (h0 ++ [prepared])), signed.
  assert (Hp : (h0 ++ [prepared]) !! length h0 = Some prepared)
    by (by apply list_lookup_middle).
  split.
  { rewrite (prepareTransaction_run account l h draft Hl), Hfees, Htoken.
    apply prepareTokenTransaction_prepared; [apply lookup_fresh|done..]. }
  split; [exact Hp|].
  split; [apply typed_recipient|].
  split.
  { unfold prepareForSignOperation, Js.bind, Js.read. rewrite Hp.
    cbv beta iota zeta.
    replace (subAccountId prepared) with (subAccountId draft)
      by (symmetry; apply typed_subAccountId).
    unfold subAccountOf in Htoken. rewrite Htoken. reflexivity. }
  split; [by apply list_lookup_middle|].
  split; [rewrite lookup_app_l; [done|]; by apply lookup_lt_Some in Hp|].
  done.
Qed.

End PipelineFacts.

(** * More about the classification and the codec *)

Section ClassificationCodecFacts.

Context {exn : Type}.

Lemma typedTransactionOf_nonFeeFields (feeData : FeeData)
    (tx1 tx2 : Transaction) :
  nonFeeFields tx1 = nonFeeFields tx2 ->
  typedTransactionOf feeData tx1 = typedTransactionOf feeData tx2.
Proof.
  destruct tx1, tx2. unfold nonFeeFields, typedTransactionOf. cbn.
  intros [= -> -> -> -> -> -> -> -> -> -> ->]. reflexivity.
Qed.

(** X5: the transaction [getTypedTransaction] returns depends on the fee
    data and on the properties of the input other than its fee fields and
    [type]: two transactions that agree on those are classified to equal
    transactions, whatever fee model they had before. *)
Theorem getTypedTransaction_forgets_fee_fields (h1 h2 : heap) (l1 l2 : loc)
    (tx1 tx2 : Transaction) (feeData : FeeData) :
  h1 !! l1 = Some tx1 ->
  h2 !! l2 = Some tx2 ->
  nonFeeFields tx1 = nonFeeFields tx2 ->
  exists h1' h2' r,
    getTypedTransaction (E := exn) l1 feeData h1 =
      Some (h1', Returned (length h1)) /\
    getTypedTransaction (E := exn) l2 feeData h2 =
      Some (h2', Returned (length h2)) /\
    h1' !! length h1 = Some r /\
    h2' !! length h2 = Some r.
Proof.
  intros Hl1 Hl2 Heq.
  eexists _, _, (typedTransactionOf feeData tx1).
  split; [by apply getTypedTransaction_run|].
  split; [by apply getTypedTransaction_run|].
  split; [apply lookup_fresh|].
  rewrite (typedTransactionOf_nonFeeFields feeData tx1 tx2 Heq).
  apply lookup_fresh.
Qed.

Lemma deletedFeeFields_typed (feeData : FeeData) (tx : Transaction) :
  deletedFeeFields feeData (typedTransactionOf feeData tx) =
  typedTransactionOf feeData tx.
Proof.
  unfold deletedFeeFields, typedTransactionOf.
  by destruct (truthy_object _ && truthy_object _), tx.
Qed.

Lemma typedTransactionOf_idem (feeData : FeeData) (tx : Transaction) :
  typedTransactionOf feeData (typedTransactionOf feeData tx) =
  typedTransactionOf feeData tx.
Proof.
  apply typedTransactionOf_nonFeeFields, nonFeeFields_typed.
Qed.

(** X6: classifying twice with the same fee data.  The second call finds
    nothing to delete in the transaction the first call returned, leaves
    every object as it is and returns an equal transaction. *)
Theorem getTypedTransaction_twice (h : heap) (l : loc) (tx : Transaction)
    (feeData : FeeData) :
  h !! l = Some tx ->
  exists h1 lt r,
    getTypedTransaction (E := exn) l feeData h = Some (h1, Returned lt) /\
    h1 !! lt = Some r /\
    getTypedTransaction (E := exn) lt feeData h1 =
      Some (h1 ++ [r], Returned (length h1)).
Proof.
  intros Hl.
  eexists _, _, (typedTransactionOf feeData tx).
  split; [by apply getTypedTransaction_run|].
  split; [apply lookup_fresh|].
  rewrite (getTypedTransaction_run _ _ _ feeData (lookup_fresh _ _ _ _)).
  rewrite deletedFeeFields_typed, typedTransactionOf_idem.
  rewrite list_insert_id by apply lookup_fresh. reflexivity.
Qed.

End ClassificationCodecFacts.

Section MoreCodecFacts.

Context {exn : Type}.

Import BigNumberFacts BufferFacts.

Lemma raw_roundtrip_of_fields (tx : Transaction) :
  BigNumber.wf (amount tx) = true ->
  BigNumber.wf (gasLimit tx) = true ->
  wf_option (gasPrice tx) = true ->
  wf_option (maxFeePerGas tx) = true ->
  wf_option (maxPriorityFeePerGas tx) = true ->
  data tx <> Some [] ->
  is_Some (type tx) ->
  fromTransactionRaw (toTransactionRaw tx) = tx.
Proof.
  destruct tx as [fam mo am re ua sa fs ci no gl da gp mf mp ty].
  cbn [amount gasLimit gasPrice maxFeePerGas maxPriorityFeePerGas data type].
  intros Ham Hgl Hgp Hmf Hmp Hdata [n ->].
  rewrite fromTransactionRaw_fields.
  unfold toTransactionRaw, toTransactionCommonRaw.
  cbn [TransactionRaw.amount TransactionRaw.recipient
    TransactionRaw.useAllAmount TransactionRaw.subAccountId
    TransactionRaw.family TransactionRaw.mode TransactionRaw.chainId
    TransactionRaw.nonce TransactionRaw.gasLimit TransactionRaw.feesStrategy
    TransactionRaw.type TransactionRaw.data TransactionRaw.gasPrice
    TransactionRaw.maxFeePerGas TransactionRaw.maxPriorityFeePerGas
    commonRaw_amount commonRaw_recipient commonRaw_useAllAmount
    commonRaw_subAccountId amount recipient useAllAmount subAccountId family
    mode chainId nonce gasLimit feesStrategy type data gasPrice maxFeePerGas
    maxPriorityFeePerGas Number].
  rewrite !ofString_toFixed by done.
  rewrite (data_roundtrip da Hdata).
  rewrite !optional_decimal_roundtrip by done.
  reflexivity.
Qed.

(** X7: a classified transaction survives the raw codec.  For a draft and
    fee data whose decimals are [BigNumber] values and a payload that is
    absent or non-empty, the transaction [getTypedTransaction] returns is
    read back from its raw form unchanged, also when the draft had no
    [type]. *)
Theorem classified_transaction_roundtrip (h : heap) (l : loc)
    (tx : Transaction) (feeData : FeeData) :
  h !! l = Some tx ->
  decimals_wf tx = true ->
  feeData_wf feeData = true ->
  data tx <> Some [] ->
  exists h' r,
    getTypedTransaction (E := exn) l feeData h =
      Some (h', Returned (length h)) /\
    h' !! length h = Some r /\
    fromTransactionRaw (toTransactionRaw r) = r.
Proof.
  intros Hl Hwf Hfd Hdata.
  eexists _, (typedTransactionOf feeData tx).
  split; [by apply getTypedTransaction_run|].
  split; [apply lookup_fresh|].
  unfold decimals_wf in Hwf. unfold feeData_wf in Hfd.
  repeat (apply andb_prop in Hwf; destruct Hwf as [Hwf ?]).
  repeat (apply andb_prop in Hfd; destruct Hfd as [Hfd ?]).
  apply raw_roundtrip_of_fields; unfold typedTransactionOf;
    destruct (FeeData.maxFeePerGas feeData) as [a|],
      (FeeData.maxPriorityFeePerGas feeData) as [b|],
      (FeeData.gasPrice feeData) as [c|];
    cbn in *; eauto.
Qed.

End MoreCodecFacts.

Section TransactionDataFacts.

Context {exn : Type} {imports : Imports exn}.

Import BufferFacts.

Lemma slice2_0x (s : string) : slice2 ("0x" +:+ s) = s.
Proof.
  unfold slice2. cbn. apply string_of_list_ascii_of_string.
Qed.

(** X8: [getTransactionData] turns the encoder's hex string into bytes.
    When the encoder answers [0x] followed by the hex of some bytes, the
    payload is those bytes, also when there are none; when it answers the
    empty string there is no payload; and what the encoder throws is
    thrown on. *)
Theorem getTransactionData_decodes (tx : Transaction) :
  (forall bs,
     encodeFunctionData_transfer (recipient tx)
       (BigNumber.toFixed (amount tx)) =
       Returned ("0x" +:+ Buffer.toString_hex bs) ->
     getTransactionData tx = Returned (Some bs)) /\
  (encodeFunctionData_transfer (recipient tx)
     (BigNumber.toFixed (amount tx)) = Returned "" ->
   getTransactionData tx = Returned None) /\
  (forall e,
     encodeFunctionData_transfer (recipient tx)
       (BigNumber.toFixed (amount tx)) = Thrown e ->
     getTransactionData tx = Thrown e).
Proof.
  unfold getTransactionData. repeat split.
  - intros bs ->. cbn [truthy_string]. f_equal.
    rewrite slice2_0x, from_hex_toString. reflexivity.
  - by intros ->.
  - by intros e ->.
Qed.

End TransactionDataFacts.

Section UnsignedTransactionFacts.

Context {exn : Type} {imports : Imports exn}.
Variable getTransactionCount :
  CryptoCurrency -> string -> outcome exn jsnumber.

Lemma transactionToUnsignedTransaction_run (account : Account) (l : loc)
    (h : heap) (tx : Transaction) (n : jsnumber) :
  h !! l = Some tx ->
  getTransactionCount (Account.currency account)
    (Account.freshAddress account) = Returned n ->
  transactionToUnsignedTransaction getTransactionCount account l h =
  Some (h ++ [with_nonce n tx], Returned (length h)).
Proof.
  intros Hl Hn.
  unfold transactionToUnsignedTransaction, Js.bind, Js.await, Js.read.
  cbv zeta. rewrite Hn. cbv beta iota. by rewrite Hl.
Qed.

Lemma prepareForSignOperation_run (account : Account) (l : loc) (h : heap)
    (tx : Transaction) :
  h !! l = Some tx ->
  prepareForSignOperation account l h =
  match subAccountOf account tx with
  | Some (SubToken tokenAccount) =>
      Some (h ++ [with_recipient
                    (contractAddress (TokenAccount.token tokenAccount)) tx],
            Returned (length h))
  | _ => Some (h, Returned l)
  end.
Proof.
  intros Hl. unfold prepareForSignOperation, Js.bind, Js.read.
  rewrite Hl. cbv beta iota zeta.
  change (findSubAccountById account (default "" (subAccountId tx)))
    with (subAccountOf account tx).
  by destruct (subAccountOf account tx) as [[ta|ca]|].
Qed.

(** X9: fetching the nonce and preparing for signing commute.  When the
    transaction count is returned, [transactionToUnsignedTransaction]
    followed by [prepareForSignOperation] ends with the same transaction as
    the two in the other order, and neither order touches the transaction
    they started from. *)
Theorem unsigned_and_sign_commute (account : Account) (l : loc) (h : heap)
    (tx : Transaction) (n : jsnumber) :
  h !! l = Some tx ->
  getTransactionCount (Account.currency account)
    (Account.freshAddress account) = Returned n ->
  exists h1 l1 h2 l2 h1' l1' h2' l2' r,
    transactionToUnsignedTransaction getTransactionCount account l h =
      Some (h1, Returned l1) /\
    prepareForSignOperation account l1 h1 = Some (h2, Returned l2) /\
    prepareForSignOperation account l h = Some (h1', Returned l1') /\
    transactionToUnsignedTransaction getTransactionCount account l1' h1' =
      Some (h2', Returned l2') /\
    h2 !! l2 = Some r /\ h2' !! l2' = Some r /\
    nonce r = n /\
    h2 !! l = Some tx /\ h2' !! l = Some tx.
Proof.
  intros Hl Hn. pose proof (lookup_lt_Some _ _ _ Hl) as Hlt.
  assert (Hu : (h ++ [with_nonce n tx]) !! length h = Some (with_nonce n tx))
    by (by apply list_lookup_middle).
  assert (Hsub : subAccountOf account (with_nonce n tx) =
                 subAccountOf account tx) by done.
  destruct (subAccountOf account tx) as [[ta|ca]|] eqn:Hsa.
  - set (c := contractAddress (TokenAccount.token ta)).
    assert (Hs : (h ++ [with_recipient c tx]) !! length h =
                 Some (with_recipient c tx))
      by (by apply list_lookup_middle).
    exists (h ++ [with_nonce n tx]), (length h),
      ((h ++ [with_nonce n tx]) ++ [with_recipient c (with_nonce n tx)]),
      (length (h ++ [with_nonce n tx])),
      (h ++ [with_recipient c tx]), (length h),
      ((h ++ [with_recipient c tx]) ++ [with_nonce n (with_recipient c tx)]),
      (length (h ++ [with_recipient c tx])),
      (with_recipient c (with_nonce n tx)).
    split; [by apply transactionToUnsignedTransaction_run|].
    split; [by rewrite (prepareForSignOperation_run _ _ _ _ Hu), Hsub|].
    split; [by rewrite (prepareForSignOperation_run _ _ _ _ Hl), Hsa|].
    split; [by apply transactionToUnsignedTransaction_run|].
    split; [by apply list_lookup_middle|].
    split; [by apply list_lookup_middle|].
    split; [done|].
    split; rewrite !lookup_app_l; try done; rewrite ?length_app; lia.
  - exists (h ++ [with_nonce n tx]), (length h),
      (h ++ [with_nonce n tx]), (length h), h, l,
      (h ++ [with_nonce n tx]), (length h), (with_nonce n tx).
    split; [by apply transactionToUnsignedTransaction_run|].
    split; [by rewrite (prepareForSignOperation_run _ _ _ _ Hu), Hsub|].
    split; [by rewrite (prepareForSignOperation_run _ _ _ _ Hl), Hsa|].
    split; [by apply transactionToUnsignedTransaction_run|].
    repeat split; try done; by rewrite lookup_app_l.
  - exists (h ++ [with_nonce n tx]), (length h),
      (h ++ [with_nonce n tx]), (length h), h, l,
      (h ++ [with_nonce n tx]), (length h), (with_nonce n tx).
    split; [by apply transactionToUnsignedTransaction_run|].
    split; [by rewrite (prepareForSignOperation_run _ _ _ _ Hu), Hsub|].
    split; [by rewrite (prepareForSignOperation_run _ _ _ _ Hl), Hsa|].
    split; [by apply transactionToUnsignedTransaction_run|].
    repeat split; try done; by rewrite lookup_app_l.
Qed.

End UnsignedTransactionFacts.

(** X10: the CLI line of a transaction shows no formatted amount when
    [useAllAmount] is set or the amount is zero: the output is then the same
    for every account, unit and unit formatter, and with [useAllAmount] it
    is the same for every amount as well. *)
Theorem formatTransaction_without_amount (U1 U2 : Type)
    (unit1 : Account -> U1) (unit2 : Account -> U2)
    (format1 : U1 -> BigNumber -> bool -> bool -> string)
    (format2 : U2 -> BigNumber -> bool -> bool -> string)
    (tx : Transaction) (account1 account2 : Account) (v : BigNumber) :
  (truthy_bool (useAllAmount tx) = true ->
   formatTransaction unit1 format1 (with_amount v tx) account1 =
   formatTransaction unit2 format2 tx account2) /\
  (BigNumber.isZero (amount tx) = true ->
   formatTransaction unit1 format1 tx account1 =
   formatTransaction unit2 format2 tx account2).
Proof.
  unfold formatTransaction. split.
  - intros Hall. destruct tx; cbn in *. by rewrite Hall.
  - intros Hzero. rewrite Hzero. by destruct (truthy_bool _).
Qed.

(** * The devices reducer *)

Module DevicesFacts.
Import Devices.

(** With string ids the second test of [duplicate] compares [undefined]
    with [undefined]: every listed device counts as a duplicate. *)
Lemma duplicate_nonempty (ds : list Device) (device : Device) :
  existsb
    (fun d =>
       String.eqb (deviceId d) (deviceId device)
       || bool_decide (id_of_string (deviceId d) =
                       id_of_string (deviceId device))) ds =
  negb (length ds =? 0)%nat.
Proof.
  destruct ds as [|d ds]; [done|]. cbn [existsb length Nat.eqb negb].
  unfold id_of_string. rewrite bool_decide_eq_true_2 by done.
  by rewrite orb_true_r.
Qed.

Lemma setCurrentDevice_nonempty (c : option Device) (ds : list Device) :
  ds <> [] ->
  exists d, currentDevice (setCurrentDevice (mkState c ds)) = Some d /\
            d ∈ ds.
Proof.
  intros Hne. unfold setCurrentDevice. cbn [devices currentDevice].
  destruct ds as [|d0 ds]; [done|].
  cbn [length Nat.eqb negb].
  destruct (lookup_lt_is_Some_2 (d0 :: ds) (length (d0 :: ds) - 1))
    as [d Hd]; [simpl; lia|].
  exists d. split; [done|]. by eapply list_elem_of_lookup_2.
Qed.

(** X11: after [ADD_DEVICE] there is a current device, whatever the state
    was and whichever device was added. *)
Theorem add_device_sets_current (state : DevicesState) (device : Device) :
  is_Some (currentDevice (reducer state (ADD_DEVICE device))).
Proof.
  cbn [reducer]. unfold addDevice. rewrite duplicate_nonempty.
  destruct state as [c ds]. cbn [devices currentDevice].
  destruct ds as [|d ds]; cbn [length Nat.eqb negb andb].
  - destruct (setCurrentDevice_nonempty c ([] ++ [device])) as (x & -> & _);
      [done|eauto].
  - destruct c as [c|]; cbn [truthy_object]; [by eexists|].
    destruct (setCurrentDevice_nonempty None (d :: ds)) as (x & -> & _);
      [done|eauto].
Qed.

(** X12: once a device is listed and current, [ADD_DEVICE] of any other
    device, also one with a different id, changes nothing. *)
Theorem add_second_device_ignored (state : DevicesState) (device : Device) :
  devices state <> [] ->
  is_Some (currentDevice state) ->
  reducer state (ADD_DEVICE device) = state.
Proof.
  intros Hne [c Hc]. cbn [reducer]. unfold addDevice.
  rewrite duplicate_nonempty, Hc.
  destruct (devices state); [done|]. reflexivity.
Qed.

Lemma reducer_at_most_one (state : DevicesState) (action : Action) :
  length (devices state) <= 1 ->
  length (devices (reducer state action)) <= 1.
Proof.
  intros Hle. destruct action as [|device|device|c|t]; cbn [reducer].
  - simpl. lia.
  - unfold addDevice. rewrite duplicate_nonempty.
    destruct state as [c ds]. cbn [devices currentDevice] in *.
    destruct ds as [|d ds]; cbn [length Nat.eqb negb andb].
    + simpl. lia.
    + destruct c; cbn [truthy_object]; [done|].
      unfold setCurrentDevice. by cbn [devices].
  - cbn [removeDevice devices].
    etrans; [apply List.filter_length_le|done].
  - done.
  - done.
Qed.

(** X13: however many devices are added, the list never holds more than
    one: after any run of actions from the initial state there is at most
    one listed device. *)
Theorem at_most_one_device (actions : list Action) :
  length (devices (run actions)) <= 1.
Proof.
  unfold run.
  assert (H : forall s, length (devices s) <= 1 ->
                        length (devices (fold_left reducer actions s)) <= 1).
  { induction actions as [|a actions IH]; intros s Hs; [done|].
    cbn [fold_left]. by apply IH, reducer_at_most_one. }
  apply H. simpl. lia.
Qed.

Lemma removeDevice_devices (state : DevicesState) (device d : Device) :
  d ∈ devices (removeDevice state device) <->
  d ∈ devices state /\ deviceId d <> deviceId device.
Proof.
  cbn [removeDevice devices].
  rewrite list_elem_of_In, filter_In, <- list_elem_of_In.
  by rewrite negb_true_iff, String.eqb_neq.
Qed.

Lemma removeDevice_current (state : DevicesState) (device c : Device) :
  currentDevice (removeDevice state device) = Some c <->
  currentDevice state = Some c /\ deviceId c <> deviceId device.
Proof.
  cbn [removeDevice currentDevice].
  destruct (currentDevice state) as [c0|]; [|by split; [|intros []]].
  destruct (String.eqb_spec (deviceId c0) (deviceId device)) as [E|E].
  - split; [done|]. intros [[= ->] Hne]. done.
  - split; [intros [= ->]; by split|by intros []].
Qed.

(** X14: [REMOVE_DEVICE] removes every device with the given id and no
    other, clears the current device when it has that id and keeps it
    otherwise, and removing again changes nothing. *)
Theorem remove_device_spec (state : DevicesState) (device : Device) :
  let state' := reducer state (REMOVE_DEVICE device) in
  (forall d, d ∈ devices state' <->
             d ∈ devices state /\ deviceId d <> deviceId device) /\
  (forall c, currentDevice state' = Some c <->
             currentDevice state = Some c /\
             deviceId c <> deviceId device) /\
  reducer state' (REMOVE_DEVICE device) = state'.
Proof.
  cbn [reducer]. split; [|split].
  - intros d. apply removeDevice_devices.
  - intros c. apply removeDevice_current.
  - unfold removeDevice. cbn [currentDevice devices]. f_equal.
    + destruct (currentDevice state) as [c0|]; [|done].
      destruct (String.eqb (deviceId c0) (deviceId device)) eqn:E; [done|].
      by rewrite E.
    + induction (devices state) as [|d ds IH]; [done|]. cbn [List.filter].
      destruct (String.eqb (deviceId d) (deviceId device)) eqn:E;
        cbn [negb]; [done|].
      cbn [List.filter]. rewrite E. cbn [negb]. by f_equal.
Qed.

Lemma reducer_current_listed (state : DevicesState) (action : Action) :
  isSetCurrent action = false ->
  (forall c, currentDevice state = Some c -> c ∈ devices state) ->
  forall c, currentDevice (reducer state action) = Some c ->
            c ∈ devices (reducer state action).
Proof.
  intros Hset Hinv.
  destruct action as [|device|device|c0|t]; cbn [reducer]; try done.
  - unfold addDevice. rewrite duplicate_nonempty.
    destruct state as [cur ds]. cbn [devices currentDevice] in *.
    destruct ds as [|d ds]; cbn [length Nat.eqb negb andb].
    + intros c Hc.
      destruct (setCurrentDevice_nonempty cur ([] ++ [device]))
        as (x & Hx & Hin); [done|].
      rewrite Hx in Hc. by injection Hc as <-.
    + destruct cur as [cur|]; cbn [truthy_object]; [exact Hinv|].
      intros c Hc.
      destruct (setCurrentDevice_nonempty None (d :: ds))
        as (x & Hx & Hin); [done|].
      rewrite Hx in Hc. by injection Hc as <-.
  - intros c Hc.
    apply removeDevice_current in Hc as [Hc Hne].
    apply removeDevice_devices. split; [by apply Hinv|done].
Qed.

Lemma fold_current_listed (actions : list Action) (s : DevicesState) :
  forallb (fun a => negb (isSetCurrent a)) actions = true ->
  (forall c, currentDevice s = Some c -> c ∈ devices s) ->
  forall c, currentDevice (fold_left reducer actions s) = Some c ->
            c ∈ devices (fold_left reducer actions s).
Proof.
  revert s. induction actions as [|a actions IH]; intros s Hacts Hs; [done|].
  cbn [forallb] in Hacts. apply andb_prop in Hacts as [Ha Hacts].
  cbn [fold_left]. apply IH; [done|].
  apply reducer_current_listed; [by apply negb_true_iff|done].
Qed.

(** X15: as long as no [SET_CURRENT_DEVICE] is dispatched, the current
    device is one of the listed devices: after any run of the other actions
    from the initial state, a current device, when there is one, is in the
    list. *)
Theorem current_device_listed (actions : list Action) (c : Device) :
  forallb (fun a => negb (isSetCurrent a)) actions = true ->
  currentDevice (run actions) = Some c ->
  c ∈ devices (run actions).
Proof.
  intros Hacts. unfold run.
  by apply (fold_current_listed actions initialState Hacts).
Qed.

(** X27: the two selectors agree.  After any run of actions other than
    [SET_CURRENT_DEVICE], and unless [MOCK] is set without
    [DEVICE_PROXY_URL], the device [getCurrentDevice] selects is one of the
    devices [getDevices] selects. *)
Theorem selected_device_listed (getEnv : string -> string)
    (actions : list Action) (c : Device) :
  forallb (fun a => negb (isSetCurrent a)) actions = true ->
  truthy_string (Some (getEnv "MOCK")) = false \/
    truthy_string (Some (getEnv "DEVICE_PROXY_URL")) = true ->
  getCurrentDevice getEnv (run actions) = Some c ->
  c ∈ getDevices getEnv (run actions).
Proof.
  intros Hacts Henv. unfold getCurrentDevice, getDevices.
  destruct (truthy_string (Some (getEnv "DEVICE_PROXY_URL"))) eqn:Hproxy.
  - cbn [orb]. intros [= <-]. by left.
  - destruct Henv as [->|?]; [|done]. cbn [orb].
    by apply (fold_current_listed actions initialState Hacts).
Qed.

End DevicesFacts.

(** * The gate check run *)

Module GateFacts.
Import Gate.

Lemma indexOf_from_spec (i : Z) (x : string) (l : list string) :
  (0 <= i)%Z ->
  (indexOf_from i x l = -1 /\ ~ In x l)%Z \/
  ((i <= indexOf_from i x l < i + Z.of_nat (length l))%Z /\
   l !! Z.to_nat (indexOf_from i x l - i) = Some x).
Proof.
  revert i. induction l as [|y l IH]; intros i Hi;
    [left; split; [reflexivity|intros []]|].
  cbn [indexOf_from].
  destruct (String.eqb_spec y x) as [->|Hne].
  - right. split; [cbn [length]; lia|]. by rewrite Z.sub_diag.
  - destruct (IH (i + 1)%Z ltac:(lia)) as [[-> Hnin]|[Hb Hl]].
    + left. split; [done|]. intros [?|?]; [done|by apply Hnin].
    + right. split; [cbn [length]; lia|].
      replace (Z.to_nat (indexOf_from (i + 1) x l - i))
        with (S (Z.to_nat (indexOf_from (i + 1) x l - (i + 1)))) by lia.
      exact Hl.
Qed.

Lemma indexOf_bounds (x : string) : (-1 <= indexOf x conclusions <= 10)%Z.
Proof.
  destruct (indexOf_from_spec 0 x conclusions ltac:(lia)) as [[H _]|[H _]];
    unfold indexOf; cbn [length conclusions] in *; lia.
Qed.

Lemma indexOf_known (x : string) :
  (0 <= indexOf x conclusions)%Z <-> In x conclusions.
Proof.
  destruct (indexOf_from_spec 0 x conclusions ltac:(lia))
    as [[H Hnin]|[H Hl]]; unfold indexOf.
  - rewrite H. split; [lia|done].
  - split; [|lia]. intros _.
    apply list_elem_of_In. by eapply list_elem_of_lookup_2.
Qed.

Lemma indexOf_inj (x y : string) :
  (0 <= indexOf x conclusions)%Z ->
  indexOf x conclusions = indexOf y conclusions -> x = y.
Proof.
  unfold indexOf. intros Hx Heq.
  destruct (indexOf_from_spec 0 x conclusions ltac:(lia))
    as [[H _]|[_ Hlx]]; [lia|].
  destruct (indexOf_from_spec 0 y conclusions ltac:(lia))
    as [[H _]|[_ Hly]]; [lia|].
  rewrite Heq in Hlx. congruence.
Qed.

Lemma indexOf_failure (x : string) :
  indexOf x conclusions = 10%Z -> x = "failure".
Proof.
  intros H. symmetry. apply indexOf_inj; [done|]. by rewrite H.
Qed.

Lemma indexOf_success (x : string) :
  indexOf x conclusions = 0%Z -> x = "success".
Proof.
  intros H. symmetry. apply indexOf_inj; [done|]. by rewrite H.
Qed.

Section AggregateFacts.

Variable GATE_CHECK_RUN_NAME : string.
Variable WORKFLOWS : list Workflow.

Local Abbreviation step := (step GATE_CHECK_RUN_NAME WORKFLOWS).
Local Abbreviation aggregate := (aggregate GATE_CHECK_RUN_NAME WORKFLOWS).
Local Abbreviation watched := (watched GATE_CHECK_RUN_NAME WORKFLOWS).

Lemma aggregate_snoc (runs : list CheckRun) (r : CheckRun) :
  aggregate (runs ++ [r]) = step (aggregate runs) r.
Proof. unfold Gate.aggregate. by rewrite fold_left_app. Qed.

Lemma step_not_watched (acc : Aggregate) (r : CheckRun) :
  watched r = false ->
  aggregatedConclusion (step acc r) = aggregatedConclusion acc /\
  aggregatedStatus (step acc r) = aggregatedStatus acc.
Proof.
  unfold Gate.watched, Gate.step.
  destruct (String.eqb (name r) GATE_CHECK_RUN_NAME); [done|].
  by destruct (unwatched WORKFLOWS r).
Qed.

Lemma step_watched (acc : Aggregate) (r : CheckRun) :
  watched r = true ->
  aggregatedConclusion (step acc r) =
    (if (rank r >? indexOf (aggregatedConclusion acc) conclusions)%Z
     then or_else (conclusion r) "neutral"
     else aggregatedConclusion acc) /\
  aggregatedStatus (step acc r) =
    (if String.eqb (status r) "completed"
        && String.eqb (aggregatedStatus acc) "completed"
     then "completed" else "in_progress").
Proof.
  unfold Gate.watched, Gate.step.
  destruct (String.eqb (name r) GATE_CHECK_RUN_NAME); [done|].
  by destruct (unwatched WORKFLOWS r).
Qed.

Lemma aggregate_status_eq (runs : list CheckRun) :
  aggregatedStatus (aggregate runs) =
  if forallb
       (fun r => negb (watched r) || String.eqb (status r) "completed") runs
  then "completed" else "in_progress".
Proof.
  induction runs as [|r runs IH] using rev_ind; [done|].
  rewrite aggregate_snoc, forallb_app. cbn [forallb]. rewrite andb_true_r.
  destruct (watched r) eqn:Hw; cbn [negb orb].
  - destruct (step_watched (aggregate runs) r Hw) as [_ ->].
    rewrite IH.
    destruct (forallb _ runs); destruct (String.eqb (status r) "completed");
      reflexivity.
  - destruct (step_not_watched (aggregate runs) r Hw) as [_ ->].
    rewrite IH, andb_true_r. reflexivity.
Qed.

(** X16: the aggregated status is [completed] when every check run that a
    workflow names, the gate apart, has completed, and [in_progress]
    otherwise; with no such check run it is [completed]. *)
Theorem aggregated_status (runs : list CheckRun) :
  aggregatedStatus (aggregate runs) =
  if forallb
       (fun r => negb (watched r) || String.eqb (status r) "completed") runs
  then "completed" else "in_progress".
Proof. exact (aggregate_status_eq runs). Qed.

Lemma aggregate_conclusion_facts (runs : list CheckRun) :
  let result := aggregatedConclusion (aggregate runs) in
  In result conclusions /\
  (forall r, In r runs -> watched r = true ->
             (rank r <= indexOf result conclusions)%Z) /\
  (result = "success" \/
   exists r, In r runs /\ watched r = true /\
             or_else (conclusion r) "neutral" = result).
Proof.
  induction runs as [|r runs IH] using rev_ind.
  { cbn. split; [tauto|]. split; [done|by left]. }
  cbv zeta in *. destruct IH as (Hin & Hub & Hatt).
  rewrite aggregate_snoc.
  destruct (watched r) eqn:Hw.
  - destruct (step_watched (aggregate runs) r Hw) as [-> _].
    rewrite Z.gtb_ltb.
    destruct (Z.ltb_spec
                (indexOf (aggregatedConclusion (aggregate runs)) conclusions)
                (rank r)) as [Hlt|Hge].
    + fold (rank r). apply indexOf_known in Hin.
      split; [apply indexOf_known; unfold rank in *; lia|].
      split.
      * intros r' [Hr'|Hr']%in_app_or Hw'.
        -- apply Hub in Hr'; [|done]. unfold rank in *. lia.
        -- destruct Hr' as [<-|[]]. unfold rank. lia.
      * right. exists r. split; [apply in_or_app; right; by left|done].
    + split; [done|]. split.
      * intros r' [Hr'|Hr']%in_app_or Hw'; [by apply Hub|].
        by destruct Hr' as [<-|[]].
      * destruct Hatt as [Hs|(r' & Hr' & Hw' & Heq)]; [by left|].
        right. exists r'. split; [apply in_or_app; by left|done].
  - destruct (step_not_watched (aggregate runs) r Hw) as [-> _].
    split; [done|]. split.
    + intros r' [Hr'|Hr']%in_app_or Hw'; [by apply Hub|].
      destruct Hr' as [<-|[]]. congruence.
    + destruct Hatt as [Hs|(r' & Hr' & Hw' & Heq)]; [by left|].
      right. exists r'. split; [apply in_or_app; by left|done].
Qed.

(** X17: the aggregated conclusion is a known conclusion that ranks at
    least as high as the conclusion of every watched check run ([null]
    counting as neutral), and it is [success] or the conclusion of one of
    them: it is the highest-ranked conclusion seen, [success] if none ranks
    higher. *)
Theorem aggregated_conclusion (runs : list CheckRun) :
  let result := aggregatedConclusion (aggregate runs) in
  In result conclusions /\
  (forall r, In r runs -> watched r = true ->
             (rank r <= indexOf result conclusions)%Z) /\
  (result = "success" \/
   exists r, In r runs /\ watched r = true /\
             or_else (conclusion r) "neutral" = result).
Proof. exact (aggregate_conclusion_facts runs). Qed.

(** X18: a failure dominates: when a watched check run has the conclusion
    [failure], so has the aggregate, whatever the other check runs are and
    in whatever order they come. *)
Theorem failure_dominates (runs : list CheckRun) (r : CheckRun) :
  In r runs -> watched r = true -> conclusion r = Some "failure" ->
  aggregatedConclusion (aggregate runs) = "failure".
Proof.
  intros Hr Hw Hc.
  destruct (aggregate_conclusion_facts runs) as (_ & Hub & _).
  specialize (Hub r Hr Hw). unfold rank in Hub. rewrite Hc in Hub.
  pose proof (indexOf_bounds (aggregatedConclusion (aggregate runs))).
  assert (Hten : indexOf (or_else (Some "failure") "neutral") conclusions
                 = 10%Z) by reflexivity.
  rewrite Hten in Hub. apply indexOf_failure. lia.
Qed.

(** X19: the aggregated conclusion and status do not depend on the order in
    which the check runs are listed. *)
Theorem aggregate_order_independent (runs runs' : list CheckRun) :
  Permutation runs runs' ->
  aggregatedConclusion (aggregate runs) =
    aggregatedConclusion (aggregate runs') /\
  aggregatedStatus (aggregate runs) = aggregatedStatus (aggregate runs').
Proof.
  intros Hperm. split.
  - destruct (aggregate_conclusion_facts runs) as (Hin & Hub & Hatt).
    destruct (aggregate_conclusion_facts runs') as (Hin' & Hub' & Hatt').
    cbv zeta in *.
    set (a := aggregatedConclusion (aggregate runs)) in *.
    set (b := aggregatedConclusion (aggregate runs')) in *.
    apply indexOf_known in Hin, Hin'.
    apply indexOf_inj; [done|]. apply Z.le_antisymm.
    + destruct Hatt as [->|(r & Hr & Hw & <-)]; [done|].
      apply Hub'; [|done]. by eapply Permutation_in.
    + destruct Hatt' as [->|(r & Hr & Hw & <-)]; [done|].
      apply Hub; [|done]. eapply Permutation_in; [|done].
      by apply Permutation_sym.
  - rewrite !aggregate_status_eq.
    set (f := fun r => negb (watched r) || String.eqb (status r) "completed").
    assert (H : forallb f runs = forallb f runs').
    { apply eq_true_iff_eq. rewrite !forallb_forall. split; intros H r Hr.
      - apply H. eapply Permutation_in; [|done]. by apply Permutation_sym.
      - apply H. by eapply Permutation_in. }
    by rewrite H.
Qed.

Lemma gate_success_sound (runs : list CheckRun) (gate : Z)
    (output : Output) :
  gateUpdate GATE_CHECK_RUN_NAME WORKFLOWS runs =
    Some (UpdateCompleted gate "success" output) ->
  forall r, In r runs -> watched r = true ->
    status r = "completed" /\
    (conclusion r = Some "success" \/
     indexOf (or_else (conclusion r) "neutral") conclusions = (-1)%Z).
Proof.
  unfold gateUpdate.
  destruct (gateId (aggregate runs)) as [g|]; [|done].
  destruct (g =? 0)%Z; [done|].
  destruct (String.eqb_spec (aggregatedStatus (aggregate runs)) "completed")
    as [Hst|]; [|done].
  intros [= _ Hc _] r Hr Hw. split.
  - rewrite aggregate_status_eq in Hst.
    destruct (forallb _ runs) eqn:Hall; [|done].
    rewrite forallb_forall in Hall. specialize (Hall r Hr).
    rewrite Hw in Hall. by apply String.eqb_eq in Hall.
  - destruct (aggregate_conclusion_facts runs) as (_ & Hub & _).
    specialize (Hub r Hr Hw). cbv zeta in Hub. rewrite Hc in Hub.
    change (indexOf "success" conclusions) with 0%Z in Hub.
    unfold rank in Hub.
    pose proof (indexOf_bounds (or_else (conclusion r) "neutral")) as Hb.
    destruct (Z.eq_dec (indexOf (or_else (conclusion r) "neutral")
                          conclusions) 0%Z) as [H0|Hn]; [left|right; lia].
    apply indexOf_success in H0. unfold or_else in H0.
    destruct (conclusion r) as [c|]; [|done].
    cbn [truthy_string default] in H0.
    destruct (negb (String.eqb c "")); [|done].
    f_equal. exact H0.
Qed.

(** X20: [updateGateCheckRun] completes the gate check run with [success]
    only when the bot's check suite was found and every watched check run
    of it has completed, each with the conclusion [success] or with one
    that is not among the known conclusions. *)
Theorem updateGateCheckRun_success_sound {exn : Type} (BOT_APP_ID : Z)
    (listSuitesForRef : outcome exn (list CheckSuite))
    (listForSuite : Z -> outcome exn (list CheckRun)) (gate : Z)
    (output : Output) :
  updateGateCheckRun BOT_APP_ID GATE_CHECK_RUN_NAME WORKFLOWS
    listSuitesForRef listForSuite =
    Returned (Some (UpdateCompleted gate "success" output)) ->
  exists suites suite runs,
    listSuitesForRef = Returned suites /\
    In suite suites /\ app_id suite = Some BOT_APP_ID /\
    listForSuite (suite_id suite) = Returned runs /\
    forall r, In r runs -> watched r = true ->
      status r = "completed" /\
      (conclusion r = Some "success" \/
       indexOf (or_else (conclusion r) "neutral") conclusions = (-1)%Z).
Proof.
  unfold updateGateCheckRun.
  destruct listSuitesForRef as [suites|e]; [|done].
  destruct (List.find _ suites) as [suite|] eqn:Hfind; [|done].
  apply find_some in Hfind as [Hin Happ]. apply bool_decide_eq_true in Happ.
  destruct (listForSuite (suite_id suite)) as [runs|e] eqn:Hruns; [|done].
  intros [= Hup]. exists suites, suite, runs.
  repeat split; try done; by eapply gate_success_sound.
Qed.

End AggregateFacts.

(** X21: the output of a finished job never has an empty summary: a
    non-empty summary passed in is kept and any other is replaced by a text
    for the conclusion.  Its title is the status emoji for the eight
    conclusions handled and a question mark for any other, for which the
    status emoji is the hourglass. *)
Theorem getGenericOutput_spec (c : string) (s : option string) :
  (truthy_string s = true -> summary (getGenericOutput c s) = default "" s) /\
  summary (getGenericOutput c s) <> "" /\
  (In c ["success"; "failure"; "neutral"; "cancelled"; "timed_out";
         "action_required"; "stale"; "skipped"] ->
   title (getGenericOutput c s) = getStatusEmoji c) /\
  (~ In c ["success"; "failure"; "neutral"; "cancelled"; "timed_out";
           "action_required"; "stale"; "skipped"] ->
   title (getGenericOutput c s) = "❓" /\ getStatusEmoji c = "⏳").
Proof.
  assert (Hor : forall fallback, fallback <> "" ->
            (truthy_string s = true -> or_else s fallback = default "" s) /\
            or_else s fallback <> "").
  { intros fallback Hf. unfold or_else.
    destruct (truthy_string s) eqn:Ht; [|done]. split; [done|].
    destruct s as [x|]; [|done]. cbn in *.
    by destruct (String.eqb_spec x ""). }
  unfold getGenericOutput, getStatusEmoji.
  repeat match goal with
    | |- context [String.eqb c ?k] =>
        destruct (String.eqb_spec c k) as [->|?]
    end; cbn [summary title];
  (split; [by apply Hor|]); (split; [by apply Hor|]);
  (split; [try done|]); cbn [In]; try tauto.
  all: intros H; exfalso; intuition congruence.
Qed.

Lemma list_ascii_of_string_app (a b : string) :
  list_ascii_of_string (a +:+ b) =
  list_ascii_of_string a ++ list_ascii_of_string b.
Proof. induction a as [|c a IH]; [done|]. simpl. f_equal. exact IH. Qed.

Lemma before_at_stop (f ref : list ascii) :
  forallb (fun c => negb (Ascii.eqb c "@")) f = true ->
  before_at (f ++ "@"%char :: ref) = f /\ before_at f = f.
Proof.
  induction f as [|c f IH]; [done|]. cbn [forallb app before_at].
  intros [Hc Hf]%andb_prop. apply negb_true_iff in Hc. rewrite Hc.
  destruct (IH Hf) as [-> ->]. done.
Qed.

Lemma strip_prefix_app (p s : list ascii) : strip_prefix p (p ++ s) = Some s.
Proof.
  induction p as [|c p IH]; [by destruct s|]. cbn.
  by rewrite Ascii.eqb_refl.
Qed.

Lemma remove_first_prefix (p s : list ascii) : remove_first p (p ++ s) = s.
Proof.
  destruct (p ++ s) as [|c r] eqn:E.
  - cbn. rewrite <- E, strip_prefix_app.
    by destruct p, s.
  - cbn [remove_first]. rewrite <- E, strip_prefix_app. reflexivity.
Qed.

(** X22: [extractWorkflowFile] gives back the file name of a workflow path:
    for a file name without [@], the path [.github/workflows/<file>], with
    or without a trailing [@<ref>], is mapped to [<file>]. *)
Theorem extractWorkflowFile_path (file ref : string) :
  forallb (fun c => negb (Ascii.eqb c "@")) (list_ascii_of_string file)
    = true ->
  extractWorkflowFile (".github/workflows/" +:+ file +:+ "@" +:+ ref) = file
  /\ extractWorkflowFile (".github/workflows/" +:+ file) = file.
Proof.
  intros Hfile. unfold extractWorkflowFile.
  set (p := list_ascii_of_string ".github/workflows/").
  assert (Hp : forallb (fun c => negb (Ascii.eqb c "@"))
                 (p ++ list_ascii_of_string file) = true).
  { rewrite forallb_app, Hfile. reflexivity. }
  destruct (before_at_stop (p ++ list_ascii_of_string file)
              (list_ascii_of_string ref) Hp) as [H1 H2].
  split.
  - rewrite !list_ascii_of_string_app. fold p.
    change (list_ascii_of_string "@" ++ list_ascii_of_string ref)
      with ("@"%char :: list_ascii_of_string ref).
    rewrite app_assoc, H1, remove_first_prefix.
    apply string_of_list_ascii_of_string.
  - rewrite list_ascii_of_string_app. fold p.
    rewrite H2, remove_first_prefix.
    apply string_of_list_ascii_of_string.
Qed.

End GateFacts.

(** * More about the raw codec *)

Section CodecStability.

Import BigNumberFacts BufferFacts.

Lemma ofString_wf (s : string) : BigNumber.wf (BigNumber.ofString s) = true.
Proof.
  unfold BigNumber.ofString.
  destruct (BigNumber.split_sign _) as [neg body].
  destruct (decide _); [done|].
  destruct (BigNumber.parse_unsigned body) as [[v dp]|]; [|done].
  apply wf_finite.
Qed.

Lemma parsed_optional_wf (s : option string) :
  wf_option
    (if truthy_string s then Some (BigNumber.ofString (default "" s))
     else None) = true.
Proof. destruct (truthy_string s); [apply ofString_wf|done]. Qed.

(** X23: on the transactions that the round trip preserves (decimals that
    are [BigNumber] values, a payload that is absent or non-empty, a [type]),
    [toTransactionRaw] is injective: two of them with the same raw form are
    the same transaction. *)
Theorem toTransactionRaw_injective (tx1 tx2 : Transaction) :
  decimals_wf tx1 = true -> data tx1 <> Some [] -> is_Some (type tx1) ->
  decimals_wf tx2 = true -> data tx2 <> Some [] -> is_Some (type tx2) ->
  toTransactionRaw tx1 = toTransactionRaw tx2 ->
  tx1 = tx2.
Proof.
  intros Hwf1 Hd1 Ht1 Hwf2 Hd2 Ht2 Heq.
  unfold decimals_wf in Hwf1, Hwf2.
  repeat (apply andb_prop in Hwf1; destruct Hwf1 as [Hwf1 ?]).
  repeat (apply andb_prop in Hwf2; destruct Hwf2 as [Hwf2 ?]).
  rewrite <- (raw_roundtrip_of_fields tx1), <- (raw_roundtrip_of_fields tx2)
    by done.
  by rewrite Heq.
Qed.

Lemma fromTransactionRaw_decimals (rawTx : TransactionRaw) :
  BigNumber.wf (amount (fromTransactionRaw rawTx)) = true /\
  BigNumber.wf (gasLimit (fromTransactionRaw rawTx)) = true /\
  wf_option (gasPrice (fromTransactionRaw rawTx)) = true /\
  wf_option (maxFeePerGas (fromTransactionRaw rawTx)) = true /\
  wf_option (maxPriorityFeePerGas (fromTransactionRaw rawTx)) = true /\
  is_Some (type (fromTransactionRaw rawTx)).
Proof.
  rewrite fromTransactionRaw_fields.
  cbn [amount gasLimit gasPrice maxFeePerGas maxPriorityFeePerGas type].
  repeat split; try apply ofString_wf; try apply parsed_optional_wf.
  by eexists.
Qed.

Lemma roundtrip_data (tx : Transaction) :
  data (fromTransactionRaw (toTransactionRaw tx)) =
  match data tx with
  | Some [] => None
  | o => o
  end.
Proof.
  rewrite fromTransactionRaw_fields. cbn [data].
  unfold toTransactionRaw. cbn [TransactionRaw.data].
  destruct (data tx) as [[|b bs]|]; [done| |done].
  apply data_roundtrip. discriminate.
Qed.

(** X24: one trip through the raw form settles a transaction.  For every
    transaction, valid or not, writing and reading it a second time gives
    what the first time gave. *)
Theorem raw_roundtrip_idempotent (tx : Transaction) :
  fromTransactionRaw
    (toTransactionRaw (fromTransactionRaw (toTransactionRaw tx))) =
  fromTransactionRaw (toTransactionRaw tx).
Proof.
  destruct (fromTransactionRaw_decimals (toTransactionRaw tx))
    as (H1 & H2 & H3 & H4 & H5 & H6).
  apply raw_roundtrip_of_fields; try done.
  rewrite roundtrip_data. by destruct (data tx) as [[|b bs]|].
Qed.

(** X25: what [fromTransactionRaw] reads is written and read back
    unchanged, provided the payload string, when there is a non-empty one,
    decodes to at least one byte. *)
Theorem parsed_transaction_roundtrip (rawTx : TransactionRaw) :
  (truthy_string (TransactionRaw.data rawTx) = true ->
   Buffer.from_hex (default "" (TransactionRaw.data rawTx)) <> []) ->
  fromTransactionRaw (toTransactionRaw (fromTransactionRaw rawTx)) =
  fromTransactionRaw rawTx.
Proof.
  intros Hdata.
  destruct (fromTransactionRaw_decimals rawTx)
    as (H1 & H2 & H3 & H4 & H5 & H6).
  apply raw_roundtrip_of_fields; try done.
  rewrite fromTransactionRaw_fields. cbn [data].
  destruct (truthy_string (TransactionRaw.data rawTx)); [|done].
  intros [= H]. by apply Hdata.
Qed.

End CodecStability.

Section DraftFeeFields.

Context {exn : Type} {imports : Imports exn}.

Lemma subAccountOf_nonFeeFields (account : Account) (d1 d2 : Transaction) :
  nonFeeFields d1 = nonFeeFields d2 ->
  subAccountOf account d1 = subAccountOf account d2.
Proof.
  unfold nonFeeFields, subAccountOf. by intros [= _ _ _ _ _ -> _ _ _ _ _].
Qed.

Lemma prepareCoinTransaction_value (account : Account) (h : heap)
    (d typed : Transaction) (l : loc) :
  returned_value
    (prepareCoinTransaction account (length h) (<[l := d]> h ++ [typed])) =
  if coinValidationFails account typed then Some (Returned (Some typed))
  else
    match getGasEstimation account
            (with_amount (coinAmount account typed) typed) with
    | Returned g =>
        Some (Returned
                (Some (with_gasLimit g
                         (with_amount (coinAmount account typed) typed))))
    | Thrown e => Some (Thrown e)
    end.
Proof.
  rewrite (prepareCoinTransaction_run _ _ _ _ (lookup_fresh _ _ _ _)).
  destruct (coinValidationFails account typed).
  - cbn [returned_value]. by rewrite lookup_fresh.
  - destruct (getGasEstimation _ _); [|done]. cbn [returned_value].
    by rewrite list_lookup_middle.
Qed.

Lemma prepareTokenTransaction_value (account : Account)
    (tokenAccount : TokenAccount) (h : heap) (d typed : Transaction)
    (l : loc) :
  returned_value
    (prepareTokenTransaction account tokenAccount (length h)
       (<[l := d]> h ++ [typed])) =
  if tokenValidationFails account tokenAccount typed
  then Some (Returned (Some typed))
  else
    match getTransactionData
            (with_amount (tokenAmount tokenAccount typed) typed) with
    | Thrown e => Some (Thrown e)
    | Returned p =>
        match getGasEstimation account
                (with_data p
                   (with_recipient
                      (contractAddress (TokenAccount.token tokenAccount))
                      typed)) with
        | Returned g =>
            Some (Returned (Some (with_gasLimit g (with_data p typed))))
        | Thrown e => Some (Thrown e)
        end
    end.
Proof.
  rewrite (prepareTokenTransaction_run _ _ _ _ _ (lookup_fresh _ _ _ _)).
  destruct (tokenValidationFails account tokenAccount typed).
  - cbn [returned_value]. by rewrite lookup_fresh.
  - destruct (getTransactionData _); [|done].
    destruct (getGasEstimation _ _); [|done]. cbn [returned_value].
    by rewrite list_lookup_middle.
Qed.

(** X26: the fee fields and the [type] a draft comes with never reach the
    prepared transaction.  Two drafts that agree on every other property
    are prepared to equal transactions, or fail with the same error,
    wherever they live in the heap. *)
Theorem prepareTransaction_ignores_draft_fee_fields (account : Account)
    (l1 l2 : loc) (h1 h2 : heap) (d1 d2 : Transaction) :
  h1 !! l1 = Some d1 ->
  h2 !! l2 = Some d2 ->
  nonFeeFields d1 = nonFeeFields d2 ->
  returned_value (prepareTransaction account l1 h1) =
  returned_value (prepareTransaction account l2 h2).
Proof.
  intros Hl1 Hl2 Heq.
  rewrite (prepareTransaction_run account l1 h1 d1 Hl1),
    (prepareTransaction_run account l2 h2 d2 Hl2).
  destruct (getFeesEstimation _) as [feeData|e]; [|done].
  rewrite (subAccountOf_nonFeeFields account d1 d2 Heq),
    (typedTransactionOf_nonFeeFields feeData d1 d2 Heq).
  destruct (subAccountOf account d2) as [[ta|ca]|].
  - by rewrite !prepareTokenTransaction_value.
  - by rewrite !prepareCoinTransaction_value.
  - by rewrite !prepareCoinTransaction_value.
Qed.

End DraftFeeFields.

(** * The further theorems at sample inputs *)

Section MoreInstances.

Import Examples MoreExamples.

Lemma prepareTransaction_one_fee_model_witness :
  exists r,
    heap_after (prepareTransaction (imports := onMarket) coinAccount 0
                  [sendAll]) !! 2 = Some r /\
    hasOneFeeModel r = true.
Proof.
  apply (prepareTransaction_one_fee_model (imports := onMarket) coinAccount
           0 2 [sendAll]
           (heap_after (prepareTransaction (imports := onMarket) coinAccount
                          0 [sendAll])) sendAll);
    [reflexivity | vm_compute; reflexivity].
Defined.

Lemma prepareTransaction_thrown_witness :
  exists feeData,
    getFeesEstimation (Imports := noEstimate) (Account.currency coinAccount) =
      Returned feeData /\
    [deletedFeeFields legacyFees sendFive;
     typedTransactionOf legacyFees sendFive] =
      <[0 := deletedFeeFields feeData sendFive]> [sendFive]
        ++ [typedTransactionOf feeData sendFive] /\
    getGasEstimation (Imports := noEstimate) coinAccount
      (with_amount
         (coinAmount (imports := noEstimate) coinAccount
            (typedTransactionOf feeData sendFive))
         (typedTransactionOf feeData sendFive)) = Thrown "no estimate".
Proof.
  assert (Hl : [sendFive] !! 0 = Some sendFive) by reflexivity.
  assert (Hrun :
    prepareTransaction (imports := noEstimate) coinAccount 0 [sendFive] =
    Some ([deletedFeeFields legacyFees sendFive;
           typedTransactionOf legacyFees sendFive], Thrown "no estimate"))
    by (vm_compute; reflexivity).
  destruct (proj1 (prepareTransaction_thrown (imports := noEstimate)
                     coinAccount 0 [sendFive] _ sendFive "no estimate" Hl)
              Hrun)
    as [[Hfees _]|(feeData & Hfees & Hheap & _ & Hgas)].
  - discriminate Hfees.
  - exists feeData. split; [exact Hfees|]. split; [exact Hheap|exact Hgas].
Defined.

Lemma prepareTransaction_coin_fixed_amount_witness :
  exists h' lt r,
    prepareTransaction (imports := onLegacy) coinAccount 0 [sendFive] =
      Some (h', Returned lt) /\
    h' !! lt = Some r /\
    gasLimit r = BigNumber.ofZ 21000 /\
    amount r = amount sendFive /\
    with_gasLimit (gasLimit sendFive) r =
    typedTransactionOf legacyFees sendFive.
Proof.
  apply (prepareTransaction_coin_fixed_amount (imports := onLegacy)
           coinAccount 0 [sendFive] sendFive legacyFees
           (BigNumber.ofZ 21000)); reflexivity.
Defined.

Lemma prepare_then_sign_token_witness :
  exists h1 lt prepared h2 ls signed,
    prepareTransaction (imports := onLegacy) tokenHolder 0 [tokenSendAll] =
      Some (h1, Returned lt) /\
    h1 !! lt = Some prepared /\
    recipient prepared = recipient tokenSendAll /\
    prepareForSignOperation (imports := onLegacy) tokenHolder lt h1 =
      Some (h2, Returned ls) /\
    h2 !! ls = Some signed /\
    h2 !! lt = Some prepared /\
    recipient signed = contract /\
    data signed = tokenPayload /\ data prepared = tokenPayload /\
    gasLimit signed = BigNumber.ofZ 21000 /\
    nonRecipientFields signed = nonRecipientFields prepared.
Proof.
  apply (prepare_then_sign_token (imports := onLegacy) tokenHolder
           (tokenAccount tokenId) 0 [tokenSendAll] tokenSendAll legacyFees
           tokenPayload (BigNumber.ofZ 21000));
    try reflexivity; vm_compute; reflexivity.
Defined.

Lemma getTypedTransaction_forgets_fee_fields_witness :
  exists h1' h2' r,
    getTypedTransaction (E := string) 0 marketFees [sendFive] =
      Some (h1', Returned 1) /\
    getTypedTransaction (E := string) 1 marketFees
      [sendAll; with_gasPrice None sendFive] = Some (h2', Returned 2) /\
    h1' !! 1 = Some r /\
    h2' !! 2 = Some r.
Proof.
  apply (getTypedTransaction_forgets_fee_fields (exn := string) [sendFive]
           [sendAll; with_gasPrice None sendFive] 0 1 sendFive
           (with_gasPrice None sendFive) marketFees); reflexivity.
Defined.

Lemma getTypedTransaction_twice_witness :
  exists h1 lt r,
    getTypedTransaction (E := string) 0 marketFees [sendFive] =
      Some (h1, Returned lt) /\
    h1 !! lt = Some r /\
    getTypedTransaction (E := string) lt marketFees h1 =
      Some (h1 ++ [r], Returned (length h1)).
Proof.
  apply (getTypedTransaction_twice (exn := string) [sendFive] 0 sendFive
           marketFees).
  reflexivity.
Defined.

Lemma classified_transaction_roundtrip_witness :
  exists h' r,
    getTypedTransaction (E := string) 0 marketFees
      [with_type None sendFive] = Some (h', Returned 1) /\
    h' !! 1 = Some r /\
    fromTransactionRaw (toTransactionRaw r) = r.
Proof.
  apply (classified_transaction_roundtrip (exn := string)
           [with_type None sendFive] 0 (with_type None sendFive) marketFees);
    [reflexivity | reflexivity | reflexivity | discriminate].
Defined.

Lemma getTransactionData_decodes_witness :
  getTransactionData (imports := onLegacy) sendFive =
  Returned (Some transferBytes).
Proof.
  destruct (getTransactionData_decodes (imports := onLegacy) sendFive)
    as (H & _ & _).
  apply H. vm_compute. reflexivity.
Defined.

Lemma unsigned_and_sign_commute_witness :
  exists h1 l1 h2 l2 h1' l1' h2' l2' r,
    transactionToUnsignedTransaction countEight tokenHolder 0
      [tokenSendAll] = Some (h1, Returned l1) /\
    prepareForSignOperation (imports := onLegacy) tokenHolder l1 h1 =
      Some (h2, Returned l2) /\
    prepareForSignOperation (imports := onLegacy) tokenHolder 0
      [tokenSendAll] = Some (h1', Returned l1') /\
    transactionToUnsignedTransaction countEight tokenHolder l1' h1' =
      Some (h2', Returned l2') /\
    h2 !! l2 = Some r /\ h2' !! l2' = Some r /\
    nonce r = JsInt 8 /\
    h2 !! 0 = Some tokenSendAll /\ h2' !! 0 = Some tokenSendAll.
Proof.
  apply (unsigned_and_sign_commute (imports := onLegacy) countEight
           tokenHolder 0 [tokenSendAll] tokenSendAll (JsInt 8));
    reflexivity.
Defined.

Lemma formatTransaction_without_amount_witness :
  formatTransaction noUnit plainFormat
    (with_amount (BigNumber.ofZ 12) sendAll) coinAccount =
  formatTransaction noUnit otherFormat sendAll tokenHolder /\
  formatTransaction noUnit plainFormat sendAll coinAccount =
  formatTransaction noUnit otherFormat sendAll tokenHolder.
Proof.
  destruct (formatTransaction_without_amount unit unit noUnit noUnit
              plainFormat otherFormat sendAll coinAccount tokenHolder
              (BigNumber.ofZ 12)) as [H1 H2].
  split; [apply H1; reflexivity | apply H2; reflexivity].
Defined.

Lemma add_second_device_ignored_witness :
  Devices.reducer (Devices.run [Devices.ADD_DEVICE nanoX])
    (Devices.ADD_DEVICE stax) =
  Devices.run [Devices.ADD_DEVICE nanoX].
Proof.
  apply (DevicesFacts.add_second_device_ignored
           (Devices.run [Devices.ADD_DEVICE nanoX]) stax);
    [discriminate | by eexists].
Defined.

Lemma current_device_listed_witness :
  nanoX ∈ Devices.devices
    (Devices.run [Devices.ADD_DEVICE stax; Devices.REMOVE_DEVICE stax;
                  Devices.ADD_DEVICE nanoX; Devices.ADD_DEVICE stax]).
Proof.
  apply (DevicesFacts.current_device_listed
           [Devices.ADD_DEVICE stax; Devices.REMOVE_DEVICE stax;
            Devices.ADD_DEVICE nanoX; Devices.ADD_DEVICE stax] nanoX);
    reflexivity.
Defined.

Lemma selected_device_listed_witness :
  nanoX ∈ Devices.getDevices (fun _ => "")
    (Devices.run [Devices.ADD_DEVICE stax; Devices.REMOVE_DEVICE stax;
                  Devices.ADD_DEVICE nanoX]).
Proof.
  apply (DevicesFacts.selected_device_listed (fun _ => "")
           [Devices.ADD_DEVICE stax; Devices.REMOVE_DEVICE stax;
            Devices.ADD_DEVICE nanoX] nanoX);
    [reflexivity|by left|reflexivity].
Defined.

Lemma failure_dominates_witness :
  Gate.aggregatedConclusion (Gate.aggregate gateName workflows redRuns) =
  "failure".
Proof.
  apply (GateFacts.failure_dominates gateName workflows redRuns
           (checkRun "test" 10 "completed" (Some "failure")));
    [right; left; reflexivity | reflexivity | reflexivity].
Defined.

Lemma aggregate_order_independent_witness :
  Gate.aggregatedConclusion (Gate.aggregate gateName workflows redRuns) =
    Gate.aggregatedConclusion
      (Gate.aggregate gateName workflows (rev redRuns)) /\
  Gate.aggregatedStatus (Gate.aggregate gateName workflows redRuns) =
    Gate.aggregatedStatus (Gate.aggregate gateName workflows (rev redRuns)).
Proof.
  apply (GateFacts.aggregate_order_independent gateName workflows redRuns
           (rev redRuns)).
  apply Permutation_rev.
Defined.

Lemma updateGateCheckRun_success_sound_witness :
  exists suites suite runs,
    Returned (E := string) [{| Gate.suite_id := 3; Gate.app_id := Some 42%Z |}]
      = Returned suites /\
    In suite suites /\ Gate.app_id suite = Some 42%Z /\
    (fun _ : Z => Returned (E := string) greenRuns) (Gate.suite_id suite) =
      Returned runs /\
    forall r, In r runs -> Gate.watched gateName workflows r = true ->
      Gate.status r = "completed" /\
      (Gate.conclusion r = Some "success" \/
       Gate.indexOf (Gate.or_else (Gate.conclusion r) "neutral")
         Gate.conclusions = (-1)%Z).
Proof.
  apply (GateFacts.updateGateCheckRun_success_sound gateName workflows
           (exn := string) 42
           (Returned [{| Gate.suite_id := 3; Gate.app_id := Some 42%Z |}])
           (fun _ => Returned greenRuns) 7
           {| Gate.title :=
                Gate.getStatusEmoji "success" +:+ " " +:+
                Gate.capitalize "success";
              Gate.summary :=
                Gate.watching (Gate.aggregate gateName workflows greenRuns)
           |}).
  vm_compute. reflexivity.
Defined.

Lemma extractWorkflowFile_path_witness :
  Gate.extractWorkflowFile
    (".github/workflows/" +:+ "build.yml" +:+ "@" +:+ "refs/heads/main") =
    "build.yml" /\
  Gate.extractWorkflowFile (".github/workflows/" +:+ "build.yml") =
    "build.yml".
Proof.
  apply (GateFacts.extractWorkflowFile_path "build.yml" "refs/heads/main").
  reflexivity.
Defined.

Lemma toTransactionRaw_injective_witness :
  with_amount (BigNumber.ofZ 5) sendAll = with_amount (BigNumber.ofZ 5) sendAll.
Proof.
  apply (toTransactionRaw_injective (with_amount (BigNumber.ofZ 5) sendAll)
           (with_amount (BigNumber.ofZ 5) sendAll));
    try reflexivity; try discriminate; by eexists.
Defined.

Lemma parsed_transaction_roundtrip_witness :
  fromTransactionRaw (toTransactionRaw (fromTransactionRaw rawWithoutType)) =
  fromTransactionRaw rawWithoutType.
Proof.
  apply (parsed_transaction_roundtrip rawWithoutType). discriminate.
Defined.

Lemma prepareTransaction_ignores_draft_fee_fields_witness :
  returned_value
    (prepareTransaction (imports := onMarket) coinAccount 0 [sendFive]) =
  returned_value
    (prepareTransaction (imports := onMarket) coinAccount 1
       [sendAll; with_type None (with_gasPrice None sendFive)]).
Proof.
  apply (prepareTransaction_ignores_draft_fee_fields (imports := onMarket)
           coinAccount 0 1 [sendFive]
           [sendAll; with_type None (with_gasPrice None sendFive)] sendFive
           (with_type None (with_gasPrice None sendFive))); reflexivity.
Defined.

End MoreInstances.
